(** * DigiBiomics: the respiratory-sound prediction service (app.py)

    A shallow embedding of [app.py]: the four pipeline transformers
    ([AudioLoader], [AudioTrimmer], [FeatureExtractor],
    [FeatureStatisticsCalculator]), [predict_condition] and the Flask
    handler [predict].

    Conventions of the embedding.
    - A Python [dict] with string keys is an association list in insertion
      order; [dict_set] is the assignment [d[k] = v] (overwrite in place,
      append when the key is new).
    - Code that can raise returns a [result]; [Raise e] is a raised
      exception that is an instance of [Exception].
    - Calls into librosa, numpy reductions, joblib and the fitted
      classifier are methods of interface classes ([Librosa], [Numpy],
      [Joblib]): their bodies are not part of this repository.
    - A Python float that the code computes with is an IEEE 754 binary64
      number ([spec_float] at precision 53); probabilities, which the
      code only compares and copies, are rationals ([Q]) and NaN is not
      represented among them.
    - The file system maps the canonical path of a file to its bytes; a
      path name reaches a file through the resolution of the operating
      system (working directory, normalisation, links). *)

From Stdlib Require Import ZArith QArith Qabs Ascii String SpecFloat.
From stdpp Require Import base tactics option list strings pretty gmap.

Set Warnings "-clear-no-such-hyp".

Local Open Scope Z_scope.

(** ** Exceptions and results *)

Inductive exn : Type :=
  | FileNotFoundError (msg : string)
  | ValueError (msg : string)
  | IndexError (msg : string)
  | OverflowError (msg : string)
  | OSError (msg : string)
  | LibraryError (msg : string).

(** [str(e)] for an exception built from a single message argument. *)
Definition str_exn (e : exn) : string :=
  match e with
  | FileNotFoundError m | ValueError m | IndexError m | OverflowError m
  | OSError m | LibraryError m => m
  end.

Inductive result (A : Type) : Type :=
  | Ok (a : A)
  | Raise (e : exn).
Arguments Ok {A} a.
Arguments Raise {A} e.

(** Sequencing stops at the first exception. *)
Global Instance result_ret : MRet result := λ A a, Ok a.
Global Instance result_bind : MBind result := λ A B k r,
  match r with
  | Ok a => k a
  | Raise e => Raise e
  end.

(** ** Python dictionaries *)

Module Dict.

Section Ops.
Context {V : Type}.

Fixpoint dict_get (d : list (string * V)) (k : string) : option V :=
  match d with
  | [] => None
  | (k', v) :: d' => if decide (k = k') then Some v else dict_get d' k
  end.

Fixpoint dict_set (d : list (string * V)) (k : string) (v : V)
  : list (string * V) :=
  match d with
  | [] => [(k, v)]
  | (k', v') :: d' =>
      if decide (k = k') then (k, v) :: d' else (k', v') :: dict_set d' k v
  end.

Definition keys (d : list (string * V)) : list string := d.*1.
Definition values (d : list (string * V)) : list V := d.*2.
End Ops.

End Dict.
Import Dict.

(** ** Paths *)

Module Path.

Definition slash : ascii := "/"%char.

(** [os.path.basename] (posix): what follows the last slash. *)
Fixpoint basename_go (acc p : string) : string :=
  match p with
  | EmptyString => acc
  | String c p' =>
      if decide (c = slash) then basename_go "" p'
      else basename_go (acc +:+ String c "") p'
  end.
Definition basename (p : string) : string := basename_go "" p.

Fixpoint ends_with_slash (a : string) : bool :=
  match a with
  | EmptyString => false
  | String c EmptyString => bool_decide (c = slash)
  | String _ a' => ends_with_slash a'
  end.

Definition starts_with_slash (b : string) : bool :=
  match b with
  | String c _ => bool_decide (c = slash)
  | EmptyString => false
  end.

(** [os.path.join(a, b)] (posix, two components): an absolute [b]
    discards [a]; otherwise the two are glued with one separator unless
    [a] is empty or already ends with one. *)
Definition join (a b : string) : string :=
  if starts_with_slash b then b
  else if bool_decide (a = "") || ends_with_slash a then a +:+ b
  else a +:+ "/" +:+ b.

End Path.

(** ** The file system *)

(** The files, by canonical path, and the resolution of a path name to
    the canonical path of the file it names: relative names are taken
    from the working directory, [.] and [..] are removed, links are
    followed. Two names are the same file when they resolve alike. *)
Record filesystem (content : Type) := FileSystem {
  store : gmap string content;
  resolve : string → string
}.
Arguments FileSystem {content}.
Arguments store {content}.
Arguments resolve {content}.

(** Reading the file named [p]. *)
Global Instance filesystem_lookup {content} :
    Lookup string content (filesystem content) :=
  λ p f, store f !! resolve f p.

(** Writing [c] to the file named [p], created or replaced. *)
Global Instance filesystem_insert {content} :
    Insert string content (filesystem content) :=
  λ p c f, FileSystem (<[resolve f p := c]> (store f)) (resolve f).

(** ** Python floats *)

Module Float.

(** binary64 *)
Definition prec : Z := 53.
Definition emax : Z := 1024.

(** [float(n)] for an integer [n]: the nearest double, ties to even;
    [OverflowError] when [n] is beyond the largest double. *)
Definition of_int (n : Z) : result spec_float :=
  match binary_normalize prec emax n 0 false with
  | S754_infinity _ => Raise (OverflowError "int too large to convert to float")
  | x => Ok x
  end.

(** [x * n] for a float [x] and an integer [n]: the integer is converted,
    then the doubles are multiplied and the product rounded. *)
Definition mul_int (x : spec_float) (n : Z) : result spec_float :=
  y ← of_int n;
  Ok (SFmul prec emax x y).

(** [int(x)]: truncation toward zero; infinities and NaN raise. *)
Definition to_int (x : spec_float) : result Z :=
  match x with
  | S754_zero _ => Ok 0
  | S754_finite s m e =>
      let v := if 0 <=? e then Z.pos m * 2 ^ e else Z.shiftr (Z.pos m) (- e) in
      Ok (if s then - v else v)
  | S754_infinity _ =>
      Raise (OverflowError "cannot convert float infinity to integer")
  | S754_nan => Raise (ValueError "cannot convert float NaN to integer")
  end.

(** The double that Python reads from a decimal literal of value [n / d]:
    the nearest double, ties to even. *)
Definition of_ratio (n d : Z) : spec_float :=
  SFdiv prec emax (binary_normalize prec emax n 0 false)
                  (binary_normalize prec emax d 0 false).



End Float.

(** The value of [target_duration]: a Python float, as the default
    [7.856] is, or a Python int. *)
Inductive number : Type :=
  | PyFloat (x : spec_float)
  | PyInt (n : Z).


(** ** External libraries *)

(** What the code uses of librosa. [sample] is one sample of a mono
    waveform, [array] a feature matrix. Every call can raise. *)
Class Librosa (content sample array : Type) := {
  (** [librosa.load(path, mono=True)] applied to the bytes found at [path] *)
  librosa_decode : content → result (list sample * Z);
  chroma_stft : list sample → Z → result array;
  mfcc : list sample → Z → Z → result array;
  melspectrogram : list sample → Z → result array;
  spectral_contrast : list sample → Z → result array;
  spectral_centroid : list sample → Z → result array;
  spectral_bandwidth : list sample → Z → result array;
  spectral_rolloff : list sample → Z → result array;
  zero_crossing_rate : list sample → result array
}.

(** What the code uses of numpy on feature matrices. [num] is a numpy
    float scalar. [np.max] and [np.min] raise on a zero-size array. *)
Class Numpy (sample array num : Type) := {
  zero : sample;
  np_mean : array → num;
  np_std : array → num;
  np_max : array → result num;
  np_min : array → result num
}.

(** ** Audio loading and trimming *)

Section Audio.

Context {content sample array num : Type}.
Context `{!Librosa content sample array} `{!Numpy sample array num}.

Record audio_info := AudioInfo {
  data : list sample;
  sample_rate : Z
}.

Record trimmed_info := TrimmedInfo {
  t_data : list sample;
  t_sample_rate : Z;
  t_duration : number
}.

(** [librosa.load(file_path, mono=True)] on a file system [fs]. *)
Definition librosa_load (fs : filesystem content) (file_path : string)
  : result (list sample * Z) :=
  match fs !! file_path with
  | Some c => librosa_decode c
  | None =>
      Raise (FileNotFoundError
               ("[Errno 2] No such file or directory: '" +:+ file_path +:+ "'"))
  end.

(** [AudioLoader.transform] *)
Fixpoint AudioLoader_loop (fs : filesystem content) (X : list string)
    (res : list (string * audio_info))
  : result (list (string * audio_info)) :=
  match X with
  | [] => Ok res
  | file_path :: X' =>
      let filename := Path.basename file_path in
      '(y, sr) ← librosa_load fs file_path;
      AudioLoader_loop fs X' (dict_set res filename (AudioInfo y sr))
  end.

Definition AudioLoader_transform (fs : filesystem content) (X : list string) :=
  AudioLoader_loop fs X [].

(** [int(self.target_duration * audio_info['sample_rate'])]: the sample
    rate is an integer; with a float duration the product is that of
    doubles, with an integer duration it is exact. *)
Definition target_samples (target_duration : number) (sr : Z) : result Z :=
  match target_duration with
  | PyFloat x => y ← Float.mul_int x sr; Float.to_int y
  | PyInt n => Ok (n * sr)
  end.

(** [len(data)] *)
Definition len (d : list sample) : Z := Z.of_nat (length d).

(** [np.pad(data, (0, n))] for a one-dimensional array: [n] zeros after
    the data. The code calls it with a positive [n] only. *)
Definition np_pad_after (d : list sample) (n : Z) : list sample :=
  d ++ replicate (Z.to_nat n) zero.

(** [data[:k]]: a negative stop counts from the end. *)
Definition slice_to (d : list sample) (k : Z) : list sample :=
  if k <? 0 then take (Z.to_nat (len d + k)) d else take (Z.to_nat k) d.

(** The body of the loop of [AudioTrimmer.transform]. *)
Definition trim_entry (target_duration : number) (audio : audio_info)
  : result trimmed_info :=
  target ← target_samples target_duration (sample_rate audio);
  let d := data audio in
  let d :=
    if len d <? target then np_pad_after d (target - len d)
    else slice_to d target in
  Ok (TrimmedInfo d (sample_rate audio) target_duration).

(** [AudioTrimmer.transform] *)
Fixpoint AudioTrimmer_loop (target_duration : number)
    (X : list (string * audio_info)) (trimmed : list (string * trimmed_info))
  : result (list (string * trimmed_info)) :=
  match X with
  | [] => Ok trimmed
  | (filename, audio_info) :: X' =>
      out ← trim_entry target_duration audio_info;
      AudioTrimmer_loop target_duration X' (dict_set trimmed filename out)
  end.

Definition AudioTrimmer_transform (target_duration : number)
    (X : list (string * audio_info)) :=
  AudioTrimmer_loop target_duration X [].

(** [AudioTrimmer()] in [create_pipeline]: the default of [__init__], the
    double that the literal [7.856] denotes. *)
Definition default_target_duration : number :=
  PyFloat (Float.of_ratio 7856 1000).

(** ** Feature extraction *)

(** The dictionary literal of [FeatureExtractor.transform]: its entries
    are evaluated in order and the first exception wins. *)
Definition extract_entry (audio : trimmed_info) : result (list (string * array)) :=
  let y_audio := t_data audio in
  let sr := t_sample_rate audio in
  f1 ← chroma_stft y_audio sr;
  f2 ← mfcc y_audio sr 13;
  f3 ← melspectrogram y_audio sr;
  f4 ← spectral_contrast y_audio sr;
  f5 ← spectral_centroid y_audio sr;
  f6 ← spectral_bandwidth y_audio sr;
  f7 ← spectral_rolloff y_audio sr;
  f8 ← zero_crossing_rate y_audio;
  Ok [("chroma_stft", f1); ("mfcc", f2); ("mel_spectrogram", f3);
      ("spectral_contrast", f4); ("spectral_centroid", f5);
      ("spectral_bandwidth", f6); ("spectral_rolloff", f7);
      ("zero_crossing_rate", f8)].

(** [FeatureExtractor.transform] *)
Fixpoint FeatureExtractor_loop (X : list (string * trimmed_info))
    (features : list (string * list (string * array)))
  : result (list (string * list (string * array))) :=
  match X with
  | [] => Ok features
  | (filename, audio_info) :: X' =>
      fs ← extract_entry audio_info;
      FeatureExtractor_loop X' (dict_set features filename fs)
  end.

Definition FeatureExtractor_transform (X : list (string * trimmed_info)) :=
  FeatureExtractor_loop X [].

End Audio.

Arguments audio_info : clear implicits.
Arguments trimmed_info : clear implicits.

(** Float arithmetic is unfolded on request only. *)
Arguments Float.of_int : simpl never.
Arguments Float.mul_int : simpl never.
Arguments Float.to_int : simpl never.
Arguments Float.of_ratio : simpl never.
Arguments target_samples : simpl never.
Arguments default_target_duration : simpl never.

(** ** Feature statistics *)

Section Statistics.

Context {sample array num : Type} `{!Numpy sample array num}.

(** A cell of a data frame: a Python string, a numpy float, or the NaN
    that pandas puts where a row has no value for a column. *)
Inductive cell : Type :=
  | Obj (s : string)
  | Num (x : num)
  | NaN.

(** A data frame: its columns in order, each with its label and one
    cell per row. *)
Definition DataFrame : Type := list (string * list cell).

Definition columns (df : DataFrame) : list string := df.*1.

(** The four assignments of the inner loop, for one feature. *)
Definition add_feature_stats (file_stats : list (string * cell))
    (feature_name : string) (d : array) : result (list (string * cell)) :=
  let file_stats := dict_set file_stats (feature_name +:+ "_mean") (Num (np_mean d)) in
  let file_stats := dict_set file_stats (feature_name +:+ "_std") (Num (np_std d)) in
  mx ← np_max d;
  let file_stats := dict_set file_stats (feature_name +:+ "_max") (Num mx) in
  mn ← np_min d;
  Ok (dict_set file_stats (feature_name +:+ "_min") (Num mn)).

Fixpoint file_stats_loop (features : list (string * array))
    (file_stats : list (string * cell)) : result (list (string * cell)) :=
  match features with
  | [] => Ok file_stats
  | (feature_name, d) :: features' =>
      file_stats ← add_feature_stats file_stats feature_name d;
      file_stats_loop features' file_stats
  end.

(** The outer loop: one row per file. *)
Fixpoint feature_stats_loop (X : list (string * list (string * array)))
    (feature_stats : list (list (string * cell)))
  : result (list (list (string * cell))) :=
  match X with
  | [] => Ok feature_stats
  | (filename, features) :: X' =>
      file_stats ← file_stats_loop features [("filename", Obj filename)];
      feature_stats_loop X' (feature_stats ++ [file_stats])
  end.

(** [pd.DataFrame(rows)] for a list of dictionaries: the column labels
    are the keys in order of first appearance, a missing value is NaN. *)
Definition add_labels (labels : list string) (row : list (string * cell))
  : list string :=
  fold_left (λ (acc : list string) k,
               if decide (k ∈ acc) then acc else acc ++ [k])
            (keys row) labels.

Definition pd_DataFrame (rows : list (list (string * cell))) : DataFrame :=
  let labels := fold_left add_labels rows [] in
  (λ k, (k, (λ row, default NaN (dict_get row k)) <$> rows)) <$> labels.

(** [df.drop(label, axis=1, inplace=True)] *)
Definition df_drop (label : string) (df : DataFrame) : DataFrame :=
  filter (λ c, c.1 ≠ label) df.

(** pandas gives a column holding a Python string the dtype [object];
    a column of numpy floats and NaN is [float64]. *)
Definition is_Obj (c : cell) : bool :=
  match c with Obj _ => true | _ => false end.
Definition dtype_is_object (col : list cell) : bool := existsb is_Obj col.

(** [df.select_dtypes(exclude=['object'])] *)
Definition select_dtypes_exclude_object (df : DataFrame) : DataFrame :=
  filter (λ c, dtype_is_object c.2 = false) df.

(** The loop over [self.excluded_features]. *)
Definition drop_excluded (excluded_features : list string) (df : DataFrame)
  : DataFrame :=
  fold_left
    (λ df feature,
       if decide (feature ∈ columns df) then df_drop feature df else df)
    excluded_features df.

(** [FeatureStatisticsCalculator.transform]; [excluded_features] is the
    attribute set by [__init__], [None] having become the empty list. *)
Definition FeatureStatisticsCalculator_transform
    (excluded_features : list string)
    (X : list (string * list (string * array))) : result DataFrame :=
  feature_stats ← feature_stats_loop X [];
  let df := pd_DataFrame feature_stats in
  let df := drop_excluded excluded_features df in
  Ok (select_dtypes_exclude_object df).

(** [FeatureStatisticsCalculator.__init__]: [excluded_features or []] *)
Definition FeatureStatisticsCalculator_init
    (excluded_features : option (list string)) : list string :=
  default [] excluded_features.

End Statistics.

Arguments cell : clear implicits.
Arguments DataFrame : clear implicits.

(** ** The pipeline *)

Section Pipeline.

Context {content sample array num : Type}.
Context `{!Librosa content sample array} `{!Numpy sample array num}.

Definition excluded_features : list string :=
  ["mel_spectrogram_min"; "chroma_stft_max"].

(** [create_pipeline().transform(X)]: the four steps in order. *)
Definition pipeline_transform (fs : filesystem content) (X : list string)
  : result (DataFrame num) :=
  loaded ← AudioLoader_transform fs X;
  trimmed ← AudioTrimmer_transform default_target_duration loaded;
  features ← FeatureExtractor_transform trimmed;
  FeatureStatisticsCalculator_transform
    (FeatureStatisticsCalculator_init (Some excluded_features)) features.

End Pipeline.

(** ** Inference *)

(** [LABEL_MAP] *)
Definition LABEL_MAP : gmap Z string :=
  list_to_map
    [(0, "Asthma"); (1, "Bronchiectasis"); (2, "Bronchiolitis"); (3, "COPD");
     (4, "Pneumonia"); (5, "LRTI"); (6, "Healthy"); (7, "URTI")].

(** The eight labels, as a set. *)
Definition LABELS : list string :=
  ["Asthma"; "Bronchiectasis"; "Bronchiolitis"; "COPD"; "Pneumonia"; "LRTI";
   "Healthy"; "URTI"].

(** A class value of the fitted model: a numpy scalar, seen through the two
    conversions the code applies to it, [int(c)] (which can raise) and
    [str(c)]. *)
Record scalar := Scalar {
  py_int_of : result Z;
  py_str : string
}.

(** A numpy integer [z]: [int] gives [z], [str] its decimal numeral. *)
Definition np_int64 (z : Z) : scalar := Scalar (Ok z) (pretty z).

(** The numpy string ['COPD'], a class value of a classifier fitted on
    label names: [int] rejects it. *)
Definition np_str_COPD : scalar :=
  Scalar (Raise (ValueError "invalid literal for int() with base 10: 'COPD'"))
         "COPD".

(** [LABEL_MAP.get(int(c), str(c))] *)
Definition label_of (c : scalar) : result string :=
  k ← py_int_of c;
  Ok (default (py_str c) (LABEL_MAP !! k)).

(** [a[0]] *)
Definition subscript0 {A} (a : list A) : result A :=
  match a with
  | x :: _ => Ok x
  | [] => Raise (IndexError "index 0 is out of bounds for axis 0 with size 0")
  end.

(** [np.max] on a vector of probabilities. *)
Definition Qmax2 (a b : Q) : Q := if Qle_bool a b then b else a.
Definition np_max_vec (v : list Q) : result Q :=
  match v with
  | x :: v' => Ok (fold_left Qmax2 v' x)
  | [] => Raise (ValueError
      "zero-size array to reduction operation maximum which has no identity")
  end.

(** The dictionary comprehension over [zip(classes, probabilities)]. *)
Fixpoint all_probabilities_loop (pairs : list (scalar * Q))
    (d : list (string * Q)) : result (list (string * Q)) :=
  match pairs with
  | [] => Ok d
  | (c, p) :: pairs' =>
      k ← label_of c;
      all_probabilities_loop pairs' (dict_set d k p)
  end.

Record prediction_result := PredictionResult {
  prediction : string;
  probability : Q;
  all_probabilities : list (string * Q)
}.

(** The fitted classifier, as far as [predict_condition] uses it. *)
Record classifier (num : Type) := Classifier {
  model_predict : DataFrame num → result (list scalar);
  model_predict_proba : DataFrame num → result (list (list Q));
  classes_ : list scalar
}.
Arguments Classifier {num}.
Arguments model_predict {num}.
Arguments model_predict_proba {num}.
Arguments classes_ {num}.

(** [joblib.load] applied to the bytes of the model file. *)
Class Joblib (content num : Type) := {
  joblib_load : content → result (classifier num)
}.

Section Inference.

Context {content sample array num : Type}.
Context `{!Librosa content sample array} `{!Numpy sample array num}.
Context `{!Joblib content num}.

(** The first lines of [predict_condition]: the model file is looked up
    and loaded, the recording goes through the pipeline, and the model
    answers. The result is [(prediction, probabilities, classes)]. *)
Definition run_model (fs : filesystem content)
    (wav_file_path model_path : string)
  : result (scalar * list Q * list scalar) :=
  match fs !! model_path with
  | None => Raise (FileNotFoundError ("Model file not found: " +:+ model_path))
  | Some pkl =>
      model ← joblib_load pkl;
      features_df ← pipeline_transform fs [wav_file_path];
      predictions ← model_predict model features_df;
      pred ← subscript0 predictions;
      probas ← model_predict_proba model features_df;
      probabilities ← subscript0 probas;
      Ok (pred, probabilities, classes_ model)
  end.

(** The rest of it: the maximum and the returned dictionary. *)
Definition build_result (pred : scalar) (probabilities : list Q)
    (classes : list scalar) : result prediction_result :=
  max_prob ← np_max_vec probabilities;
  label ← label_of pred;
  all ← all_probabilities_loop (zip classes probabilities) [];
  Ok (PredictionResult label max_prob all).

(** [predict_condition(wav_file_path, model_path)] on a file system. *)
Definition predict_condition (fs : filesystem content)
    (wav_file_path model_path : string) : result prediction_result :=
  '(pred, probabilities, classes) ← run_model fs wav_file_path model_path;
  build_result pred probabilities classes.

End Inference.

(** ** The HTTP handler *)

Local Unset Elimination Schemes.
Inductive json : Type :=
  | JStr (s : string)
  | JNum (x : Q)
  | JObj (fields : list (string * json)).
Local Set Elimination Schemes.

Record response := Response {
  body : json;
  status : Z
}.

(** [jsonify(result)] *)
Definition jsonify_result (r : prediction_result) : json :=
  JObj [("prediction", JStr (prediction r));
        ("probability", JNum (probability r));
        ("all_probabilities", JObj (prod_map id JNum <$> all_probabilities r))].

(** The field [k] of a JSON object. *)
Definition json_field (j : json) (k : string) : option json :=
  match j with
  | JObj fields => dict_get fields k
  | _ => None
  end.

Section Handler.

Context {content sample array num : Type}.
Context `{!Librosa content sample array} `{!Numpy sample array num}.
Context `{!Joblib content num}.

(** An uploaded part: [file.filename] and the bytes sent. *)
Record upload := Upload {
  filename : string;
  stream : content
}.

(** A request, as far as the handler reads it: [request.files]. *)
Record request := Request {
  files : list (string * upload)
}.

(** What the handler does to its environment, in order. *)
Inductive event : Type :=
  | Saved (path : string)
  | CalledPredictCondition (path : string)
  | PrintedTraceback (e : exn).

(** The environment of the process: the files, the paths at which the
    operating system accepts a write, the directory returned by
    [tempfile.gettempdir()], and the trace of the handler's effects. *)
Record world := World {
  fs : filesystem content;
  writable : string → bool;
  temp_dir : string;
  trace : list event
}.

Definition log (w : world) (ev : event) : world :=
  World (fs w) (writable w) (temp_dir w) (trace w ++ [ev]).

(** [file.save(file_path)] *)
Definition file_save (w : world) (file : upload) (file_path : string)
  : result world :=
  if writable w file_path then
    Ok (World (<[file_path := stream file]> (fs w)) (writable w) (temp_dir w)
              (trace w ++ [Saved file_path]))
  else
    Raise (OSError ("cannot write '" +:+ file_path +:+ "'")).

(** The path the upload is written to. *)
Definition upload_path (w : world) (file : upload) : string :=
  Path.join (temp_dir w) (filename file).

(** The view function [predict]. [Raise] is an exception that leaves the
    function (to the framework); the second component is the
    environment afterwards. *)
Definition predict (w : world) (req : request) : result response * world :=
  match dict_get (files req) "file" with
  | None => (Ok (Response (JObj [("error", JStr "No file uploaded")]) 400), w)
  | Some file =>
      let file_path := upload_path w file in
      match file_save w file file_path with
      | Raise e => (Raise e, w)
      | Ok w =>
          let w := log w (CalledPredictCondition file_path) in
          match predict_condition (fs w) file_path "respiratory_classifier.pkl" with
          | Ok r => (Ok (Response (jsonify_result r) 200), w)
          | Raise e =>
              let w := log w (PrintedTraceback e) in
              (Ok (Response (JObj [("error", JStr (str_exn e))]) 500), w)
          end
      end
  end.

End Handler.

Arguments upload : clear implicits.
Arguments request : clear implicits.
Arguments world : clear implicits.

(** ** Vocabulary of the properties *)

(** A row of statistics that records its file name. *)
Definition has_filename {num : Type} (row : list (string * cell num)) : Prop :=
  ∃ filename, dict_get row "filename" = Some (Obj filename).

(** A decimal numeral starts with a digit or a minus sign, a label with a
    capital letter. *)
Definition numeric_head (s : string) : Prop :=
  match s with
  | EmptyString => True
  | String c _ => c ∈ list_ascii_of_string "0123456789-"
  end.

(** The label, or numeral, that the code gives the integer class [z]. *)
Definition int_label (z : Z) : string := default (pretty z) (LABEL_MAP !! z).

(** [m] is a greatest element of [v]. *)
Definition is_maximum (m : Q) (v : list Q) : Prop :=
  m ∈ v ∧ ∀ x, x ∈ v → (x <= m)%Q.

(** The sum of a vector of probabilities. *)
Definition Qsum (v : list Q) : Q := foldr Qplus 0%Q v.

(** The paths written by [file.save], in order. *)
Definition saved_paths (tr : list event) : list string :=
  omap (λ ev, match ev with Saved path => Some path | _ => None end) tr.

(** The files whose prediction was started, in order. *)
Definition predicted_paths (tr : list event) : list string :=
  omap (λ ev, match ev with CalledPredictCondition path => Some path
                       | _ => None end) tr.

Ltac nodup := repeat (apply NoDup_cons_2; [set_solver|]); apply NoDup_nil_2.

(** The keys under which [add_feature_stats] stores the statistics of the
    feature [feature_name], in the order of the four assignments. *)
Definition stat_keys (feature_name : string) : list string :=
  [feature_name +:+ "_mean"; feature_name +:+ "_std";
   feature_name +:+ "_max"; feature_name +:+ "_min"].

(** The keys of the dictionary literal of [FeatureExtractor.transform]. *)
Definition feature_names : list string :=
  ["chroma_stft"; "mfcc"; "mel_spectrogram"; "spectral_contrast";
   "spectral_centroid"; "spectral_bandwidth"; "spectral_rolloff";
   "zero_crossing_rate"].

(** A cell that holds a numpy float. *)
Definition is_Num {num : Type} (c : cell num) : Prop := ∃ x, c = Num x.

(** A row of statistics made of the file name followed by one numeric
    cell for each key of [K], in order. *)
Definition uniform_row {num : Type} (K : list string)
    (row : list (string * cell num)) : Prop :=
  ∃ filename cells,
    row = ("filename", Obj filename) :: cells ∧
    keys cells = K ∧
    Forall (λ kv, is_Num kv.2) cells.

(** The keys of the statistics of the eight features, in order. *)
Definition all_stat_keys : list string := concat (stat_keys <$> feature_names).

(** The thirty columns of the table handed to the classifier. *)
Definition classifier_columns : list string :=
  ["chroma_stft_mean"; "chroma_stft_std"; "chroma_stft_min";
   "mfcc_mean"; "mfcc_std"; "mfcc_max"; "mfcc_min";
   "mel_spectrogram_mean"; "mel_spectrogram_std"; "mel_spectrogram_max";
   "spectral_contrast_mean"; "spectral_contrast_std";
   "spectral_contrast_max"; "spectral_contrast_min";
   "spectral_centroid_mean"; "spectral_centroid_std";
   "spectral_centroid_max"; "spectral_centroid_min";
   "spectral_bandwidth_mean"; "spectral_bandwidth_std";
   "spectral_bandwidth_max"; "spectral_bandwidth_min";
   "spectral_rolloff_mean"; "spectral_rolloff_std";
   "spectral_rolloff_max"; "spectral_rolloff_min";
   "zero_crossing_rate_mean"; "zero_crossing_rate_std";
   "zero_crossing_rate_max"; "zero_crossing_rate_min"].

(** A response that reports an error: its body has the field ['error']. *)
Definition is_error_response (resp : response) : Prop :=
  ∃ msg, json_field (body resp) "error" = Some (JStr msg).

(** A response that reports a prediction: its body has the three fields of
    the result and no field ['error']. *)
Definition is_prediction_response (resp : response) : Prop :=
  json_field (body resp) "error" = None ∧
  ∃ label p all,
    json_field (body resp) "prediction" = Some (JStr label) ∧
    json_field (body resp) "probability" = Some (JNum p) ∧
    json_field (body resp) "all_probabilities" = Some (JObj all).

(** ** A concrete instance of the interfaces

    Small stand-ins for the libraries, used to run the definitions on
    concrete inputs: file contents are strings, samples and feature
    values are integers, a feature matrix is the list of its entries. *)

Module Demo.

Definition decode (c : string) : result (list Z * Z) :=
  if decide (c = "") then Raise (LibraryError "empty file")
  else Ok ([Z.of_nat (String.length c); 1; -1], 2).

Definition feature (y : list Z) : result (list Z) := Ok y.

Global Instance demo_librosa : Librosa string Z (list Z) := {|
  librosa_decode := decode;
  chroma_stft y _ := feature y;
  mfcc y _ _ := feature y;
  melspectrogram y _ := feature y;
  spectral_contrast y _ := feature y;
  spectral_centroid y _ := feature y;
  spectral_bandwidth y _ := feature y;
  spectral_rolloff y _ := feature y;
  zero_crossing_rate y := feature y
|}.

Definition reduce (f : Z → Z → Z) (a : list Z) : result Z :=
  match a with
  | x :: a' => Ok (fold_left f a' x)
  | [] => Raise (ValueError "zero-size array")
  end.

Global Instance demo_numpy : Numpy Z (list Z) Z := {|
  zero := 0;
  np_mean a := fold_left Z.add a 0 `div` Z.of_nat (length a);
  np_std a := 0;
  np_max := reduce Z.max;
  np_min := reduce Z.min
|}.

(** A classifier that answers class [pred] with the distribution
    [probs] over the classes [cls]. *)
Definition constant_model (pred : scalar) (probs : list Q)
    (cls : list scalar) : classifier Z :=
  Classifier (λ _, Ok [pred]) (λ _, Ok [probs]) cls.

Definition model3 : classifier Z :=
  constant_model (np_int64 3) [1 # 10; 7 # 10; 2 # 10]
                 (np_int64 <$> [0; 3; 6]).

(** A classifier fitted on nine integer classes that answers class 8. *)
Definition model9 : classifier Z :=
  constant_model (np_int64 8)
                 [0; 0; 0; 0; 0; 0; 0; 1 # 4; 3 # 4]%Q
                 (np_int64 <$> [0; 1; 2; 3; 4; 5; 6; 7; 8]).

(** A classifier fitted on label names. *)
Definition model_names : classifier Z :=
  constant_model np_str_COPD [1%Q] [np_str_COPD].

Global Instance demo_joblib : Joblib string Z := {|
  joblib_load c :=
    if decide (c = "model3") then Ok model3
    else if decide (c = "model9") then Ok model9
    else if decide (c = "model_names") then Ok model_names
    else Raise (LibraryError "could not unpickle")
|}.

Definition model_path : string := "respiratory_classifier.pkl".

(** The components of a path, split at the slashes; [cur] is the
    component read so far. *)
Fixpoint components (p cur : string) : list string :=
  match p with
  | EmptyString => [cur]
  | String c p' =>
      if decide (c = "/"%char) then cur :: components p' ""
      else components p' (cur +:+ String c "")
  end.

(** One step of the walk along a path; [dirs] is the directory reached,
    innermost first. *)
Definition walk (dirs : list string) (name : string) : list string :=
  if decide (name = "") then dirs
  else if decide (name = ".") then dirs
  else if decide (name = "..") then tail dirs
  else name :: dirs.

(** Path resolution from the working directory [/srv/app] on a file
    system without links: a relative name is taken from the directory,
    empty components and [.] are dropped, [..] goes one directory up. *)
Definition cwd_resolve (p : string) : string :=
  let p := if Path.starts_with_slash p then p else "/srv/app/" +:+ p in
  match reverse (fold_left walk (components p "") []) with
  | [] => "/"
  | names => foldr (λ name rest, "/" +:+ name +:+ rest) "" names
  end.

(** The file system that holds the file [pkl] at the model path. *)
Definition disk_with (pkl : string) : filesystem string :=
  FileSystem {[ "/srv/app/respiratory_classifier.pkl" := pkl ]} cwd_resolve.

Definition world_with (pkl : string) : world string :=
  World (disk_with pkl) (λ _, true) "/tmp" [].

Definition world0 : world string := world_with "model3".

(** The files after an upload of [cough.wav] into [world_with pkl]. *)
Definition fs_with (pkl : string) : filesystem string :=
  <[ "/tmp/cough.wav" := "RIFF" ]> (disk_with pkl).

Definition world_no_model : world string :=
  World (FileSystem ∅ cwd_resolve) (λ _, true) "/tmp" [].

Definition cough : upload string := Upload "cough.wav" "RIFF".
Definition cough' : upload string := Upload "cough.wav" "RIFF-other".

Definition req_cough : request string := Request [("file", cough)].
Definition req_cough' : request string := Request [("file", cough')].
Definition req_empty : request string := Request [].

(** [world_no_model] after the upload of [cough]. *)
Definition world_no_model_saved : world string :=
  World (FileSystem {[ "/tmp/cough.wav" := "RIFF" ]} cwd_resolve)
        (λ _, true) "/tmp" [Saved "/tmp/cough.wav"].

(** Two waveforms at 2 samples per second. *)
Definition short_wave : audio_info Z := AudioInfo [5; -3; 2] 2.
Definition long_wave : audio_info Z :=
  AudioInfo [1; 2; 3; 4; 5; 6; 7; 8; 9; 10; 11; 12; 13; 14; 15; 16; 17; 18; 19] 2.


(** The features of one recording, and the table made of them. *)
Definition features1 : list (string * list (string * list Z)) :=
  [("cough.wav", [("chroma_stft", [1; 2]); ("mel_spectrogram", [3; 0])])].

Definition table1 : DataFrame Z :=
  [("chroma_stft_mean", [Num 1]); ("chroma_stft_std", [Num 0]);
   ("chroma_stft_min", [Num 1]); ("mel_spectrogram_mean", [Num 1]);
   ("mel_spectrogram_std", [Num 0]); ("mel_spectrogram_max", [Num 3])].

(** The table the pipeline makes of the upload [cough]. *)
Definition table2 : DataFrame Z :=
  Eval vm_compute in
    match pipeline_transform (fs_with "model3") ["/tmp/cough.wav"] with
    | Ok df => df
    | Raise _ => []
    end.

Definition result3 : prediction_result :=
  PredictionResult "COPD" (7 # 10)
    [("Asthma", 1 # 10); ("COPD", 7 # 10); ("Healthy", 2 # 10)]%Q.

Definition probs9 : list Q := [0; 0; 0; 0; 0; 0; 0; 1 # 4; 3 # 4]%Q.
Definition classes9 : list scalar := np_int64 <$> [0; 1; 2; 3; 4; 5; 6; 7; 8].

Definition result9 : prediction_result :=
  PredictionResult "8" (3 # 4)
    [("Asthma", 0); ("Bronchiectasis", 0); ("Bronchiolitis", 0); ("COPD", 0);
     ("Pneumonia", 0); ("LRTI", 0); ("Healthy", 0); ("URTI", 1 # 4);
     ("8", 3 # 4)]%Q.

End Demo.

(** Further concrete data, on the same stand-ins. *)

Module Demo2.
Import Demo.

(** Three files, two of them with the same basename. *)
Definition fs_batch : filesystem string :=
  FileSystem
    (<["/a/x.wav" := "AA"]> (<["/b/x.wav" := "BBB"]> {["/b/y.wav" := "C"]}))
    cwd_resolve.

Definition batch : list string := ["/a/x.wav"; "/b/x.wav"; "/b/y.wav"].

Definition loaded_batch : list (string * audio_info Z) :=
  [("x.wav", AudioInfo [3; 1; -1] 2); ("y.wav", AudioInfo [1; 1; -1] 2)].

(** A negative duration, [-1.0]. *)
Definition negative_duration : number := PyFloat (Float.of_ratio (-1) 1).

(** One trimmed waveform and the features extracted from it. *)
Definition trimmed1 : list (string * trimmed_info Z) :=
  [("cough.wav", TrimmedInfo [4; 1; -1] 2 default_target_duration)].

Definition extracted1 : list (string * list (string * list Z)) :=
  [("cough.wav",
    [("chroma_stft", [4; 1; -1]); ("mfcc", [4; 1; -1]);
     ("mel_spectrogram", [4; 1; -1]); ("spectral_contrast", [4; 1; -1]);
     ("spectral_centroid", [4; 1; -1]); ("spectral_bandwidth", [4; 1; -1]);
     ("spectral_rolloff", [4; 1; -1]); ("zero_crossing_rate", [4; 1; -1])])].

(** The table of [features1] without exclusions. *)
Definition table1_all : DataFrame Z :=
  [("chroma_stft_mean", [Num 1]); ("chroma_stft_std", [Num 0]);
   ("chroma_stft_max", [Num 2]); ("chroma_stft_min", [Num 1]);
   ("mel_spectrogram_mean", [Num 1]); ("mel_spectrogram_std", [Num 0]);
   ("mel_spectrogram_max", [Num 3]); ("mel_spectrogram_min", [Num 0])].

(** Two class values that are numpy strings, ['0'] and ['00']: [int]
    gives 0 for both. *)
Definition np_str_0 : scalar := Scalar (Ok 0) "0".
Definition np_str_00 : scalar := Scalar (Ok 0) "00".

Definition model_dup : classifier Z :=
  constant_model np_str_0 [9 # 10; 1 # 10]%Q [np_str_0; np_str_00].

Definition joblib_dup : Joblib string Z := {|
  joblib_load c := Ok model_dup
|}.

Definition result_dup : prediction_result :=
  PredictionResult "Asthma" (9 # 10) [("Asthma", 1 # 10)]%Q.

(** An upload whose file name is an absolute path. *)
Definition absolute : upload string := Upload "/srv/app/model.bin" "RIFF".
Definition req_absolute : request string := Request [("file", absolute)].

(** An upload named after the model file by its absolute path. *)
Definition model_upload : upload string :=
  Upload "/srv/app/respiratory_classifier.pkl" "RIFF".
Definition req_model : request string := Request [("file", model_upload)].

(** An upload whose file name starts with [./]. *)
Definition dot_cough : upload string := Upload "./cough.wav" "RIFF".
Definition req_dot : request string := Request [("file", dot_cough)].

(** An environment in which no path can be written. *)
Definition world_readonly : world string :=
  World (disk_with "model3") (λ _, false) "/tmp" [].

(** [world0] with a stale file at the upload path and another file. *)
Definition world_stale : world string :=
  World (<["/tmp/cough.wav" := "old"]>
           (<["/tmp/other" := "zzz"]> (disk_with "model3")))
        (λ _, true) "/tmp" [Saved "/tmp/cough.wav"].

Definition response3 : response :=
  Response
    (JObj [("prediction", JStr "COPD"); ("probability", JNum (7 # 10));
           ("all_probabilities",
            JObj [("Asthma", JNum (1 # 10)); ("COPD", JNum (7 # 10));
                  ("Healthy", JNum (2 # 10))])])
    200.

End Demo2.

(** * Properties *)

(** ** Dictionaries *)

Section DictFacts.

Context {V : Type}.
Implicit Types (d : list (string * V)) (k : string) (v : V).

Lemma dict_set_fresh d k v :
  k ∉ keys d → dict_set d k v = d ++ [(k, v)].
Proof.
  induction d as [|[k' v'] d IH]; simpl; [done|].
  intros Hk. apply not_elem_of_cons in Hk as [Hne Hk].
  destruct (decide (k = k')); [done|]. by rewrite IH.
Qed.

Lemma keys_dict_set_fresh d k v :
  k ∉ keys d → keys (dict_set d k v) = keys d ++ [k].
Proof.
  intros Hk. rewrite dict_set_fresh by done.
  unfold keys. by rewrite fmap_app.
Qed.

Lemma keys_dict_set_present d k v :
  k ∈ keys d → keys (dict_set d k v) = keys d.
Proof.
  induction d as [|[k' v'] d IH]; simpl.
  - by intros ?%elem_of_nil.
  - intros Hk. destruct (decide (k = k')) as [->|Hne]; [done|].
    simpl. f_equal. apply IH. apply elem_of_cons in Hk as [?|?]; done.
Qed.

Lemma elem_of_keys_dict_set d k v k' :
  k' ∈ keys (dict_set d k v) ↔ k' = k ∨ k' ∈ keys d.
Proof.
  destruct (decide (k ∈ keys d)) as [Hin|Hout].
  - rewrite keys_dict_set_present by done. naive_solver.
  - rewrite keys_dict_set_fresh by done. rewrite elem_of_app.
    rewrite list_elem_of_singleton. naive_solver.
Qed.

Lemma NoDup_keys_dict_set d k v :
  NoDup (keys d) → NoDup (keys (dict_set d k v)).
Proof.
  intros Hnd. destruct (decide (k ∈ keys d)) as [Hin|Hout].
  - by rewrite keys_dict_set_present.
  - rewrite keys_dict_set_fresh by done. apply NoDup_app.
    split_and!; [done| |apply NoDup_singleton].
    intros x Hx ->%list_elem_of_singleton. done.
Qed.

Lemma dict_get_set_eq d k v : dict_get (dict_set d k v) k = Some v.
Proof.
  induction d as [|[k' v'] d IH]; simpl.
  - by rewrite decide_True.
  - destruct (decide (k = k')) as [->|Hne]; simpl.
    + by rewrite decide_True.
    + by rewrite decide_False.
Qed.

Lemma dict_get_set_ne d k v k' :
  k ≠ k' → dict_get (dict_set d k v) k' = dict_get d k'.
Proof.
  intros Hne. induction d as [|[k0 v0] d IH]; simpl.
  - by rewrite decide_False by done.
  - destruct (decide (k = k0)) as [->|Hk]; simpl.
    + by rewrite !decide_False by done.
    + destruct (decide (k' = k0)); [done|apply IH].
Qed.

End DictFacts.

(** ** The file system *)

Section FileSystemFacts.

Context {content : Type}.
Implicit Types (f : filesystem content) (p q : string) (c : content).

Lemma fs_lookup_unfold f p : f !! p = store f !! resolve f p.
Proof. reflexivity. Qed.

Lemma fs_insert_unfold f p c :
  <[p := c]> f = FileSystem (<[resolve f p := c]> (store f)) (resolve f).
Proof. reflexivity. Qed.

(** What was written to a name is read from that name. *)
Lemma fs_lookup_insert_eq f p c : <[p := c]> f !! p = Some c.
Proof.
  rewrite fs_insert_unfold, fs_lookup_unfold. simpl. apply lookup_insert_eq.
Qed.

(** A name that resolves to the same file reads what was written. *)
Lemma fs_lookup_insert_alias f p q c :
  resolve f p = resolve f q → <[p := c]> f !! q = Some c.
Proof.
  intros Hpq. rewrite fs_insert_unfold, fs_lookup_unfold. simpl.
  rewrite Hpq. apply lookup_insert_eq.
Qed.

(** A name that resolves to another file is not affected. *)
Lemma fs_lookup_insert_ne f p q c :
  resolve f p ≠ resolve f q → <[p := c]> f !! q = f !! q.
Proof.
  intros Hpq. rewrite fs_insert_unfold, !fs_lookup_unfold. simpl.
  by apply lookup_insert_ne.
Qed.

End FileSystemFacts.

(** ** Trimming *)

Section FloatFacts.





End FloatFacts.

Section TrimmerFacts.

Context {sample array num : Type} `{!Numpy sample array num}.
Implicit Types (d : list sample) (X : list (string * audio_info sample)).
Implicit Types (td : number).


(** The literal [7.856] is the double [8845069668155654 * 2^-50]. *)
Lemma default_target_duration_eq :
  default_target_duration = PyFloat (S754_finite false 8845069668155654 (-50)).
Proof. by vm_compute. Qed.

Lemma default_target_samples_22050 :
  target_samples default_target_duration 22050 = Ok 173224.
Proof. by vm_compute. Qed.

(** The product is rounded before it is truncated: [int(0.29 * 100)] is
    28, and a product beyond the largest double raises; the product of
    integers is exact. *)
Lemma target_samples_rounds :
  target_samples (PyFloat (Float.of_ratio 29 100)) 100 = Ok 28 ∧
  target_samples (PyFloat (Float.of_ratio 7 10)) 10 = Ok 7 ∧
  target_samples (PyFloat (S754_finite false (2 ^ 53 - 1) 971)) 2
  = Raise (OverflowError "cannot convert float infinity to integer") ∧
  target_samples (PyInt 8) 22050 = Ok 176400.
Proof. by vm_compute. Qed.

Lemma slice_to_nonneg d (k : Z) :
  0 <= k → slice_to d k = take (Z.to_nat k) d.
Proof. intros Hk. unfold slice_to. by rewrite (proj2 (Z.ltb_ge k 0)). Qed.

(** What a negative stop does: it drops [-k] samples from the end. *)
Lemma slice_to_neg d (k : Z) :
  k < 0 → length (slice_to d k) = Z.to_nat (len d + k).
Proof.
  intros Hk. unfold slice_to. rewrite (proj2 (Z.ltb_lt k 0)) by done.
  rewrite length_take. unfold len. lia.
Qed.


Lemma trim_entry_of_target td (a : audio_info sample) (target : Z) :
  target_samples td (sample_rate a) = Ok target →
  trim_entry td a
  = Ok (TrimmedInfo
          (if len (data a) <? target
           then np_pad_after (data a) (target - len (data a))
           else slice_to (data a) target)
          (sample_rate a) td).
Proof. intros Ht. unfold trim_entry. by rewrite Ht. Qed.

Lemma trim_data_nonneg d (target : Z) :
  0 <= target →
  let out := if len d <? target then np_pad_after d (target - len d)
             else slice_to d target in
  len out = target ∧
  (len d < target → out = d ++ replicate (Z.to_nat (target - len d)) zero) ∧
  (target <= len d → out = take (Z.to_nat target) d).
Proof.
  intros Hpos. simpl. destruct (Z.ltb_spec (len d) target) as [Hlt|Hge].
  - split_and!; [|done|lia]. unfold np_pad_after, len in *.
    rewrite length_app, length_replicate. lia.
  - rewrite slice_to_nonneg by done. split_and!; [|lia|done].
    unfold len in *. rewrite length_take. lia.
Qed.

Lemma AudioTrimmer_loop_spec td X
    (acc trimmed : list (string * trimmed_info sample)) :
  AudioTrimmer_loop td X acc = Ok trimmed →
  (∀ k, k ∉ keys X → dict_get trimmed k = dict_get acc k) ∧
  (NoDup (keys X) →
   ∀ k a, dict_get X k = Some a →
          ∃ out, dict_get trimmed k = Some out ∧ trim_entry td a = Ok out) ∧
  (NoDup (keys acc ++ keys X) → keys trimmed = keys acc ++ keys X).
Proof.
  revert acc. induction X as [|[k0 a0] X IH]; intros acc; simpl.
  - intros [= ->]. split_and!; [done|done|]. by rewrite app_nil_r.
  - destruct (trim_entry td a0) as [o0|] eqn:Ho; [|done]. simpl.
    intros Hloop. destruct (IH _ Hloop) as (Hother & Hget & Hkeys).
    split_and!.
    + intros k Hk. apply not_elem_of_cons in Hk as [Hne Hk].
      rewrite (Hother k Hk). apply dict_get_set_ne. congruence.
    + intros [Hk0 Hnd]%NoDup_cons k a.
      destruct (decide (k = k0)) as [->|Hne].
      * intros [= <-]. exists o0. split; [|done].
        rewrite (Hother k0 Hk0). apply dict_get_set_eq.
      * by apply Hget.
    + intros Hnd.
      assert (k0 ∉ keys acc) as Hk.
      { apply NoDup_app in Hnd as (_ & Hdisj & _).
        intros Hin. apply (Hdisj _ Hin). by left. }
      rewrite Hkeys; rewrite keys_dict_set_fresh by done;
        by rewrite <- app_assoc.
Qed.




End TrimmerFacts.

(** ** Statistics *)

Section StatisticsFacts.

Context {sample array num : Type} `{!Numpy sample array num}.
Implicit Types (df : DataFrame num) (row : list (string * cell num)).
Implicit Types (rows : list (list (string * cell num))).

Lemma dict_get_dict_set_ne {V} (d : list (string * V)) k v k' :
  k ≠ k' → dict_get (dict_set d k v) k' = dict_get d k'.
Proof.
  intros Hne. induction d as [|[k0 v0] d IH]; simpl.
  - by rewrite decide_False by done.
  - destruct (decide (k = k0)) as [->|Hk]; simpl.
    + by rewrite !decide_False by done.
    + destruct (decide (k' = k0)); [done|apply IH].
Qed.

Lemma string_length_app (s t : string) :
  String.length (s +:+ t) = (String.length s + String.length t)%nat.
Proof. induction s as [|c s IH]; simpl; [done|by rewrite IH]. Qed.

(** No statistic is stored under the key of the file name. *)
Lemma stat_key_not_filename (feature_name suffix : string) :
  suffix ∈ ["_mean"; "_std"; "_max"; "_min"] →
  feature_name +:+ suffix ≠ "filename".
Proof.
  intros Hs Heq.
  assert (String.length feature_name + String.length suffix = 8)%nat as Hlen.
  { rewrite <- string_length_app. by rewrite Heq. }
  repeat (apply elem_of_cons in Hs as [->|Hs]);
    [..|by apply elem_of_nil in Hs];
    destruct feature_name as [|c1 [|c2 [|c3 [|c4 [|c5 s]]]]];
    simpl in Hlen; cbv in Heq; first [lia | congruence].
Qed.

Lemma add_feature_stats_filename row feature_name (d : array) row' :
  add_feature_stats row feature_name d = Ok row' →
  has_filename row → has_filename row'.
Proof.
  unfold add_feature_stats. intros Hadd [fn Hfn]. exists fn.
  destruct (np_max d) as [mx|]; [|done]. simpl in Hadd.
  destruct (np_min d) as [mn|]; [|done]. simpl in Hadd.
  injection Hadd as <-.
  rewrite !dict_get_dict_set_ne; [done|..];
    apply stat_key_not_filename; set_solver.
Qed.

Lemma file_stats_loop_filename (features : list (string * array)) row row' :
  file_stats_loop features row = Ok row' →
  has_filename row → has_filename row'.
Proof.
  revert row. induction features as [|[name d] features IH]; intros row; simpl.
  - by intros [= ->].
  - destruct (add_feature_stats row name d) as [row1|] eqn:Hadd; [|done].
    simpl. intros Hloop Hrow. apply (IH row1); [done|].
    by eapply add_feature_stats_filename.
Qed.

Lemma feature_stats_loop_filename
    (X : list (string * list (string * array))) rows rows' :
  feature_stats_loop X rows = Ok rows' →
  Forall has_filename rows → Forall has_filename rows'.
Proof.
  revert rows. induction X as [|[filename features] X IH]; intros rows; simpl.
  - by intros [= ->].
  - destruct (file_stats_loop features _) as [row|] eqn:Hrow; [|done].
    simpl. intros Hloop Hrows. apply (IH _ Hloop).
    apply Forall_app. split; [done|]. apply Forall_singleton.
    eapply file_stats_loop_filename; [done|]. by exists filename.
Qed.

(** The column of the file names holds a string in every row. *)
Lemma filename_column_is_object rows (col : list (cell num)) :
  Forall has_filename rows →
  ("filename", col) ∈ pd_DataFrame rows →
  dtype_is_object col = true.
Proof.
  intros Hrows Hin. unfold pd_DataFrame in Hin.
  apply list_elem_of_fmap in Hin as (k & Heq & Hk).
  injection Heq as <- ->.
  destruct rows as [|row rows]; [by apply elem_of_nil in Hk|].
  apply Forall_cons in Hrows as [[fn Hfn] _].
  simpl. by rewrite Hfn.
Qed.

Lemma df_drop_subseteq (label : string) df : df_drop label df ⊆ df.
Proof. intros c Hc. unfold df_drop in Hc. by apply list_elem_of_filter in Hc as [_ ?]. Qed.

Lemma drop_excluded_subseteq (excluded : list string) df :
  drop_excluded excluded df ⊆ df.
Proof.
  unfold drop_excluded. revert df.
  induction excluded as [|f excluded IH]; intros df; simpl; [done|].
  destruct (decide (f ∈ columns df)); [|apply IH].
  etrans; [apply IH|apply df_drop_subseteq].
Qed.

Lemma columns_mono df df' : df ⊆ df' → columns df ⊆ columns df'.
Proof.
  intros Hsub k Hk. unfold columns in *.
  apply list_elem_of_fmap in Hk as (c & -> & Hc).
  apply list_elem_of_fmap. exists c. split; [done|by apply Hsub].
Qed.

Lemma not_in_columns_df_drop (label : string) df :
  label ∉ columns (df_drop label df).
Proof.
  unfold columns, df_drop. intros Hin.
  apply list_elem_of_fmap in Hin as (c & -> & Hc).
  by apply list_elem_of_filter in Hc as [Hne _].
Qed.

(** After the loop over the excluded names none of them labels a
    column. *)
Lemma drop_excluded_spec (excluded : list string) df (feature : string) :
  feature ∈ excluded → feature ∉ columns (drop_excluded excluded df).
Proof.
  unfold drop_excluded. revert df.
  induction excluded as [|f excluded IH]; intros df Hin; simpl.
  - by apply elem_of_nil in Hin.
  - apply elem_of_cons in Hin as [->|Hin]; [|by apply IH].
    intros Hcol.
    destruct (decide (f ∈ columns df)) as [Hf|Hf].
    + apply (columns_mono _ _ (drop_excluded_subseteq excluded _)) in Hcol.
      by apply not_in_columns_df_drop in Hcol.
    + apply Hf. by apply (columns_mono _ _ (drop_excluded_subseteq excluded _)).
Qed.

Lemma select_dtypes_subseteq df : select_dtypes_exclude_object df ⊆ df.
Proof.
  intros c Hc. unfold select_dtypes_exclude_object in Hc.
  by apply list_elem_of_filter in Hc as [_ ?].
Qed.

Lemma FeatureStatisticsCalculator_transform_Ok (excluded : list string)
    (X : list (string * list (string * array))) df :
  FeatureStatisticsCalculator_transform excluded X = Ok df →
  ∃ rows, feature_stats_loop X [] = Ok rows ∧
    df = select_dtypes_exclude_object (drop_excluded excluded (pd_DataFrame rows)).
Proof.
  unfold FeatureStatisticsCalculator_transform.
  destruct (feature_stats_loop X []) as [rows|]; [|done].
  intros [= <-]. by exists rows.
Qed.

(** C4. Whenever the statistics step, configured as [create_pipeline]
    configures it, returns a table, neither ['mel_spectrogram_min'] nor
    ['chroma_stft_max'] labels one of its columns. *)
Theorem statistics_table_excludes_columns
    (X : list (string * list (string * array))) df :
  FeatureStatisticsCalculator_transform
    (FeatureStatisticsCalculator_init (Some excluded_features)) X = Ok df →
  ("mel_spectrogram_min" ∉ columns df) ∧ ("chroma_stft_max" ∉ columns df).
Proof.
  change (FeatureStatisticsCalculator_init (Some excluded_features))
    with excluded_features.
  intros (rows & _ & ->)%FeatureStatisticsCalculator_transform_Ok.
  split; intros Hin;
    apply (columns_mono _ _ (select_dtypes_subseteq _)) in Hin;
    (eapply drop_excluded_spec; [|exact Hin]); set_solver.
Qed.

(** Whenever the statistics step returns a table, whatever the excluded
    names, no column of it is labelled ['filename'] and every column is
    numeric. *)
Lemma statistics_table_has_no_filename (excluded : list string)
    (X : list (string * list (string * array))) df :
  FeatureStatisticsCalculator_transform excluded X = Ok df →
  ("filename" ∉ columns df) ∧
  ∀ label col, (label, col) ∈ df → dtype_is_object col = false.
Proof.
  intros (rows & Hrows & ->)%FeatureStatisticsCalculator_transform_Ok.
  apply feature_stats_loop_filename in Hrows; [|by apply Forall_nil].
  split.
  - intros Hin. unfold columns in Hin.
    apply list_elem_of_fmap in Hin as ([label col] & Hl & Hc).
    simpl in Hl. subst label.
    unfold select_dtypes_exclude_object in Hc.
    apply list_elem_of_filter in Hc as [Hnum Hc]. simpl in Hnum.
    apply drop_excluded_subseteq in Hc.
    apply (filename_column_is_object _ _ Hrows) in Hc. congruence.
  - intros label col Hc. unfold select_dtypes_exclude_object in Hc.
    by apply list_elem_of_filter in Hc as [Hnum _].
Qed.

End StatisticsFacts.

(** ** Labels *)

Section LabelFacts.

Lemma LABEL_MAP_lookup (z : Z) (l : string) :
  LABEL_MAP !! z = Some l ↔
  (z, l) ∈ [(0, "Asthma"); (1, "Bronchiectasis"); (2, "Bronchiolitis");
            (3, "COPD"); (4, "Pneumonia"); (5, "LRTI"); (6, "Healthy");
            (7, "URTI")].
Proof.
  unfold LABEL_MAP. symmetry. apply elem_of_list_to_map.
  simpl. repeat (apply NoDup_cons; split; [set_solver|]). apply NoDup_nil_2.
Qed.

(** The keys of [LABEL_MAP] are the integers from 0 to 7. *)
Lemma LABEL_MAP_is_Some (z : Z) : is_Some (LABEL_MAP !! z) ↔ 0 <= z <= 7.
Proof.
  split.
  - intros [l Hl]. apply LABEL_MAP_lookup in Hl.
    repeat (apply elem_of_cons in Hl as [[= -> ->]|Hl]; [lia|]).
    by apply elem_of_nil in Hl.
  - intros Hz.
    assert (z = 0 ∨ z = 1 ∨ z = 2 ∨ z = 3 ∨ z = 4 ∨ z = 5 ∨ z = 6 ∨ z = 7)
      as Hcases by lia.
    destruct_or!; subst z; by eexists.
Qed.

(** [LABELS] is the set of the values of [LABEL_MAP]. *)
Lemma LABEL_MAP_values (l : string) :
  l ∈ LABELS ↔ ∃ z, LABEL_MAP !! z = Some l.
Proof.
  split.
  - intros Hl. unfold LABELS in Hl.
    repeat (apply elem_of_cons in Hl as [->|Hl];
            [first [by exists 0 | by exists 1 | by exists 2 | by exists 3
                   | by exists 4 | by exists 5 | by exists 6 | by exists 7]|]).
    by apply elem_of_nil in Hl.
  - intros [z Hz]. apply LABEL_MAP_lookup in Hz.
    repeat (apply elem_of_cons in Hz as [[= -> ->]|Hz]; [set_solver|]).
    by apply elem_of_nil in Hz.
Qed.

Lemma LABEL_MAP_inj (z1 z2 : Z) (l : string) :
  LABEL_MAP !! z1 = Some l → LABEL_MAP !! z2 = Some l → z1 = z2.
Proof.
  intros H1%LABEL_MAP_lookup H2%LABEL_MAP_lookup.
  repeat (apply elem_of_cons in H1 as [?|H1];
          [simplify_eq;
           repeat (apply elem_of_cons in H2 as [?|H2]; [by simplify_eq|]);
           by apply elem_of_nil in H2|]).
  by apply elem_of_nil in H1.
Qed.

Lemma pretty_N_go_numeric_head (x : N) (s : string) :
  numeric_head s → numeric_head (pretty_N_go x s).
Proof.
  revert s. induction (N.lt_wf_0 x) as [x _ IH]; intros s Hs.
  destruct (decide (x = 0)%N) as [->|Hx].
  - by rewrite pretty_N_go_0.
  - rewrite pretty_N_go_step by lia. apply IH.
    + apply N.div_lt; lia.
    + simpl. unfold pretty_N_char. repeat case_match; set_solver.
Qed.

Lemma pretty_Z_numeric_head (z : Z) : numeric_head (pretty z).
Proof.
  destruct z as [|p|p]; unfold pretty, pretty_Z; simpl.
  - set_solver.
  - unfold pretty, pretty_positive, pretty, pretty_N.
    rewrite decide_False by done. by apply pretty_N_go_numeric_head.
  - set_solver.
Qed.

Lemma label_not_numeric_head (l : string) : l ∈ LABELS → ¬ numeric_head l.
Proof.
  intros Hl. unfold LABELS in Hl.
  repeat (apply elem_of_cons in Hl as [->|Hl]; [simpl; set_solver|]).
  by apply elem_of_nil in Hl.
Qed.

(** The numeral of an integer is never one of the eight labels. *)
Lemma pretty_Z_not_label (z : Z) : pretty z ∉ LABELS.
Proof.
  intros Hl. by apply (label_not_numeric_head _ Hl), pretty_Z_numeric_head.
Qed.

(** Distinct integer classes get distinct keys. *)
Lemma int_label_inj : Inj (=) (=) int_label.
Proof.
  intros z1 z2. unfold int_label.
  destruct (LABEL_MAP !! z1) as [l1|] eqn:H1,
           (LABEL_MAP !! z2) as [l2|] eqn:H2; simpl.
  - intros <-. by eapply LABEL_MAP_inj.
  - intros ->. destruct (pretty_Z_not_label z2).
    apply LABEL_MAP_values. by exists z1.
  - intros <-. destruct (pretty_Z_not_label z1).
    apply LABEL_MAP_values. by exists z2.
  - apply (inj pretty).
Qed.

End LabelFacts.

(** ** Inference *)

Section InferenceFacts.

Context {content sample array num : Type}.
Context `{!Librosa content sample array} `{!Numpy sample array num}.
Context `{!Joblib content num}.

Lemma Qmax2_cases (a b : Q) :
  (Qmax2 a b = b ∧ (a <= b)%Q) ∨ (Qmax2 a b = a ∧ (b <= a)%Q).
Proof.
  unfold Qmax2. destruct (Qle_bool a b) eqn:Hab.
  - left. split; [done|]. by apply Qle_bool_iff.
  - right. split; [done|]. apply Qlt_le_weak, Qnot_le_lt.
    rewrite <- Qle_bool_iff. by rewrite Hab.
Qed.

Lemma fold_Qmax2_is_maximum (v : list Q) (x : Q) :
  is_maximum (fold_left Qmax2 v x) (x :: v).
Proof.
  revert x. induction v as [|y v IH]; intros x; simpl.
  - split; [set_solver|]. intros z ->%list_elem_of_singleton. apply Qle_refl.
  - destruct (IH (Qmax2 x y)) as [Hin Hle]. split.
    + apply elem_of_cons in Hin as [Hm|Hin]; [|set_solver].
      rewrite Hm. destruct (Qmax2_cases x y) as [[-> _]|[-> _]]; set_solver.
    + intros z Hz.
      assert (Qmax2 x y <= fold_left Qmax2 v (Qmax2 x y))%Q as Hxy
        by (apply Hle; set_solver).
      destruct (Qmax2_cases x y) as [[Heq Hc]|[Heq Hc]];
        rewrite Heq in *;
        repeat (apply elem_of_cons in Hz as [->|Hz]);
        first [ done | by apply Hle; set_solver
              | by eapply Qle_trans | apply Hle; set_solver ].
Qed.

Lemma np_max_vec_Ok (v : list Q) (m : Q) :
  np_max_vec v = Ok m → is_maximum m v.
Proof.
  destruct v as [|x v]; [done|]. intros [= <-]. apply fold_Qmax2_is_maximum.
Qed.

Lemma np_max_vec_nonempty (v : list Q) :
  v ≠ [] → ∃ m, np_max_vec v = Ok m.
Proof. destruct v; [done|]. by eexists. Qed.

(** On distinct integer classes whose labels are not yet keys, the
    comprehension appends one entry per pair, in order. *)
Lemma all_probabilities_loop_ints (zs : list Z) (ps : list Q)
    (d : list (string * Q)) :
  NoDup (keys d ++ (int_label <$> zs)) →
  all_probabilities_loop (zip (np_int64 <$> zs) ps) d
  = Ok (d ++ zip (int_label <$> zs) ps).
Proof.
  revert ps d. induction zs as [|z zs IH]; intros ps d Hnd; simpl.
  - by rewrite app_nil_r.
  - destruct ps as [|p ps]; simpl; [by rewrite app_nil_r|].
    apply NoDup_app in Hnd as (Hd & Hdisj & Hzs).
    assert (int_label z ∉ keys d) as Hz.
    { intros Hin. apply (Hdisj _ Hin). set_solver. }
    rewrite dict_set_fresh by done. rewrite IH.
    + by rewrite <- app_assoc.
    + unfold keys. rewrite fmap_app. simpl. rewrite <- app_assoc. simpl.
      apply NoDup_app. split_and!; [done| |done].
      intros x Hx. apply Hdisj in Hx. done.
Qed.

Lemma build_result_ints (pred : scalar) (probs : list Q) (zs : list Z)
    (r : prediction_result) :
  NoDup zs → length zs = length probs →
  build_result pred probs (np_int64 <$> zs) = Ok r →
  np_max_vec probs = Ok (probability r) ∧
  values (all_probabilities r) = probs.
Proof.
  intros Hnd Hlen. unfold build_result.
  destruct (np_max_vec probs) as [m|]; [|done]. simpl.
  destruct (label_of pred) as [l|]; [|done]. simpl.
  rewrite all_probabilities_loop_ints.
  - simpl. intros [= <-]. simpl. split; [done|].
    unfold values. apply snd_zip. rewrite length_fmap. lia.
  - simpl. pose proof int_label_inj as Hinj. by apply (NoDup_fmap_2 int_label).
Qed.

(** When [int] accepts every class, the comprehension succeeds and
    every class of a pair has its label among the keys. *)
Lemma all_probabilities_loop_Ok (pairs : list (scalar * Q))
    (d : list (string * Q)) :
  Forall (λ cp, ∃ z, py_int_of cp.1 = Ok z) pairs →
  ∃ d', all_probabilities_loop pairs d = Ok d' ∧
        keys d ⊆ keys d' ∧
        ∀ c p l, (c, p) ∈ pairs → label_of c = Ok l → l ∈ keys d'.
Proof.
  revert d. induction pairs as [|[c p] pairs IH]; intros d Hall; simpl.
  - exists d. split_and!; [done..|]. intros ??? Hin. by apply elem_of_nil in Hin.
  - apply Forall_cons in Hall as [[z Hz] Hall]. simpl in Hz.
    unfold label_of at 1. rewrite Hz. simpl.
    destruct (IH (dict_set d (default (py_str c) (LABEL_MAP !! z)) p) Hall)
      as (d' & Hloop & Hsub & Hkeys).
    exists d'. split_and!; [done| |].
    + intros k Hk. apply Hsub. apply elem_of_keys_dict_set. by right.
    + intros c' p' l [Heq|Hin]%elem_of_cons Hl.
      * injection Heq as -> ->. unfold label_of in Hl. rewrite Hz in Hl.
        injection Hl as <-. apply Hsub, elem_of_keys_dict_set. by left.
      * by eapply Hkeys.
Qed.

Lemma predict_condition_unfold (fs : filesystem content) (wav mp : string)
    (pred : scalar) (probs : list Q) (classes : list scalar) :
  run_model fs wav mp = Ok (pred, probs, classes) →
  predict_condition fs wav mp = build_result pred probs classes.
Proof. unfold predict_condition. by intros ->. Qed.

Lemma build_result_prediction (pred : scalar) (probs : list Q)
    (classes : list scalar) (r : prediction_result) :
  build_result pred probs classes = Ok r → label_of pred = Ok (prediction r).
Proof.
  unfold build_result.
  destruct (np_max_vec probs) as [m|]; [|done]. simpl.
  destruct (label_of pred) as [l|]; [|done]. simpl.
  destruct (all_probabilities_loop _ _) as [d|]; [|done]. simpl.
  by intros [= <-].
Qed.

(** C2, amended. When the model answers [pred] for the recording,
    [int(pred)] is an integer between 0 and 7 and the prediction
    succeeds, the returned label is one of the eight labels. *)
Theorem predicted_label_in_label_set (fs : filesystem content)
    (wav mp : string) (pred : scalar) (probs : list Q)
    (classes : list scalar) (z : Z) (r : prediction_result) :
  run_model fs wav mp = Ok (pred, probs, classes) →
  py_int_of pred = Ok z →
  0 <= z <= 7 →
  predict_condition fs wav mp = Ok r →
  prediction r ∈ LABELS.
Proof.
  intros Hrun Hz Hrange Hr.
  rewrite (predict_condition_unfold _ _ _ _ _ _ Hrun) in Hr.
  apply build_result_prediction in Hr.
  unfold label_of in Hr. rewrite Hz in Hr. simpl in Hr.
  apply LABEL_MAP_is_Some in Hrange as [l Hl].
  rewrite Hl in Hr. injection Hr as <-.
  apply LABEL_MAP_values. by exists z.
Qed.

Lemma fst_zip_take {A B} (l : list A) (k : list B) :
  (zip l k).*1 = take (length k) l.
Proof.
  revert k. induction l as [|x l IH]; intros [|y k]; simpl; [done..|].
  by rewrite IH.
Qed.

Lemma snd_zip_take {A B} (l : list A) (k : list B) :
  (zip l k).*2 = take (length l) k.
Proof.
  revert k. induction l as [|x l IH]; intros [|y k]; simpl; [done..|].
  by rewrite IH.
Qed.

(** When the classes of the pairs get pairwise distinct keys, none of
    them in the dictionary yet, the comprehension appends one entry for
    each pair, in order. *)
Lemma all_probabilities_loop_distinct (pairs : list (scalar * Q))
    (d d' : list (string * Q)) :
  all_probabilities_loop pairs d = Ok d' →
  NoDup (label_of <$> pairs.*1) →
  (∀ c l, c ∈ pairs.*1 → label_of c = Ok l → l ∉ keys d) →
  values d' = values d ++ pairs.*2.
Proof.
  revert d. induction pairs as [|[c p] pairs IH]; intros d; simpl.
  - intros [= <-] _ _. by rewrite app_nil_r.
  - destruct (label_of c) as [k|] eqn:Hk; [|done]. simpl.
    intros Hloop [Hc Hnd]%NoDup_cons Hfresh.
    assert (k ∉ keys d) as Hkd by (apply (Hfresh c); [by left|done]).
    rewrite dict_set_fresh in Hloop by done.
    rewrite (IH _ Hloop Hnd).
    + unfold values. rewrite fmap_app. simpl. by rewrite <- app_assoc.
    + intros c' l Hc' Hl. unfold keys. rewrite fmap_app. simpl.
      apply not_elem_of_app. split; [apply (Hfresh c'); [by right|done]|].
      intros ->%list_elem_of_singleton. apply Hc.
      rewrite <- Hl. by apply list_elem_of_fmap_2.
Qed.

Lemma build_result_distinct (pred : scalar) (probs : list Q)
    (classes : list scalar) (r : prediction_result) :
  NoDup (label_of <$> take (length probs) classes) →
  (length probs ≤ length classes)%nat →
  build_result pred probs classes = Ok r →
  np_max_vec probs = Ok (probability r) ∧
  values (all_probabilities r) = probs.
Proof.
  intros Hnd Hlen. unfold build_result.
  destruct (np_max_vec probs) as [m|]; [|done]. simpl.
  destruct (label_of pred) as [l|]; [|done]. simpl.
  destruct (all_probabilities_loop _ _) as [d|] eqn:Hloop; [|done]. simpl.
  intros [= <-]. simpl. split; [done|].
  apply all_probabilities_loop_distinct in Hloop.
  - rewrite Hloop, snd_zip_take. simpl. by apply take_ge.
  - by rewrite fst_zip_take.
  - intros c k _ _. apply not_elem_of_nil.
Qed.

(** C3, amended. When the classes paired with a probability get pairwise
    distinct keys [LABEL_MAP.get(int(c), str(c))], every probability of
    the vector is paired with a class, and the prediction succeeds, the
    returned ['probability'] is a greatest value of the returned
    ['all_probabilities']. *)
Theorem probability_is_max_of_all_probabilities (fs : filesystem content)
    (wav mp : string) (pred : scalar) (probs : list Q)
    (classes : list scalar) (r : prediction_result) :
  run_model fs wav mp = Ok (pred, probs, classes) →
  NoDup (label_of <$> take (length probs) classes) →
  (length probs ≤ length classes)%nat →
  predict_condition fs wav mp = Ok r →
  is_maximum (probability r) (values (all_probabilities r)).
Proof.
  intros Hrun Hnd Hlen Hr.
  rewrite (predict_condition_unfold _ _ _ _ _ _ Hrun) in Hr.
  destruct (build_result_distinct _ _ _ _ Hnd Hlen Hr) as [Hmax ->].
  by apply np_max_vec_Ok.
Qed.

(** C7, amended. When the classes paired with a probability get pairwise
    distinct keys, every probability of the vector is paired with a
    class, and the prediction succeeds, the values of the returned
    ['all_probabilities'] are the probability vector of the classifier,
    unchanged and in order; their sum is within a tolerance of 1
    whenever the sum of the classifier's vector is. *)
Theorem all_probabilities_sum_is_model_sum (fs : filesystem content)
    (wav mp : string) (pred : scalar) (probs : list Q)
    (classes : list scalar) (r : prediction_result) (eps : Q) :
  run_model fs wav mp = Ok (pred, probs, classes) →
  NoDup (label_of <$> take (length probs) classes) →
  (length probs ≤ length classes)%nat →
  predict_condition fs wav mp = Ok r →
  values (all_probabilities r) = probs ∧
  ((Qabs (Qsum probs - 1) <= eps)%Q →
   (Qabs (Qsum (values (all_probabilities r)) - 1) <= eps)%Q).
Proof.
  intros Hrun Hnd Hlen Hr.
  rewrite (predict_condition_unfold _ _ _ _ _ _ Hrun) in Hr.
  destruct (build_result_distinct _ _ _ _ Hnd Hlen Hr) as [_ Hvalues].
  split; [done|]. by rewrite Hvalues.
Qed.

(** C9, amended. When the model returns a non-empty probability vector
    and [int] accepts the predicted class and every class of
    [model.classes_], [predict_condition] returns a result; a predicted
    class whose integer is not a key of [LABEL_MAP] is reported as
    [str(prediction)], and every such class paired with a probability
    has [str(c)] among the keys of ['all_probabilities']. *)
Theorem unknown_class_falls_back_to_str (fs : filesystem content)
    (wav mp : string) (pred : scalar) (probs : list Q)
    (classes : list scalar) (z : Z) :
  run_model fs wav mp = Ok (pred, probs, classes) →
  probs ≠ [] →
  py_int_of pred = Ok z →
  Forall (λ c, ∃ zc, py_int_of c = Ok zc) classes →
  ∃ r, predict_condition fs wav mp = Ok r ∧
       (LABEL_MAP !! z = None → prediction r = py_str pred) ∧
       (∀ c p zc, (c, p) ∈ zip classes probs →
                  py_int_of c = Ok zc → LABEL_MAP !! zc = None →
                  py_str c ∈ keys (all_probabilities r)).
Proof.
  intros Hrun Hprobs Hz Hall.
  rewrite (predict_condition_unfold _ _ _ _ _ _ Hrun).
  destruct (np_max_vec_nonempty _ Hprobs) as [m Hm].
  destruct (all_probabilities_loop_Ok (zip classes probs) []) as (d & Hd & _ & Hkeys).
  { apply Forall_forall. intros [c p] Hin. simpl.
    apply elem_of_zip_l in Hin. by apply (proj1 (Forall_forall _ _) Hall). }
  exists (PredictionResult (default (py_str pred) (LABEL_MAP !! z)) m d).
  split_and!.
  - unfold build_result, label_of. rewrite Hm, Hz. simpl. by rewrite Hd.
  - simpl. by intros ->.
  - simpl. intros c p zc Hin Hzc Hnone. apply (Hkeys c p); [done|].
    unfold label_of. rewrite Hzc. simpl. by rewrite Hnone.
Qed.

End InferenceFacts.

(** ** The pipeline as a whole *)

Section PipelineFacts.

Context {content sample array num : Type}.
Context `{!Librosa content sample array} `{!Numpy sample array num}.

Lemma AudioLoader_loop_NoDup (fs : filesystem content) (X : list string)
    (acc loaded : list (string * audio_info sample)) :
  AudioLoader_loop fs X acc = Ok loaded → NoDup (keys acc) → NoDup (keys loaded).
Proof.
  revert acc. induction X as [|file_path X IH]; intros acc; simpl.
  - by intros [= ->].
  - destruct (librosa_load fs file_path) as [[y sr]|]; [|done]. simpl.
    intros Hloop Hnd. apply (IH _ Hloop). by apply NoDup_keys_dict_set.
Qed.

(** The loader hands the trimmer a dictionary: its keys are distinct. *)
Lemma AudioLoader_transform_NoDup (fs : filesystem content) (X : list string)
    (loaded : list (string * audio_info sample)) :
  AudioLoader_transform fs X = Ok loaded → NoDup (keys loaded).
Proof. intros Hl. eapply AudioLoader_loop_NoDup; [done|apply NoDup_nil_2]. Qed.

Lemma pipeline_transform_Ok (fs : filesystem content) (X : list string)
    (df : DataFrame num) :
  pipeline_transform fs X = Ok df →
  ∃ features,
    FeatureStatisticsCalculator_transform excluded_features features = Ok df.
Proof.
  unfold pipeline_transform.
  destruct (AudioLoader_transform fs X) as [loaded|]; [|done]. simpl.
  destruct (AudioTrimmer_transform _ loaded) as [trimmed|]; [|done]. simpl.
  destruct (FeatureExtractor_transform _) as [features|]; [|done]. simpl.
  intros Hdf. by exists features.
Qed.

(** C10. Whenever the pipeline returns the table that is handed to the
    classifier, no column of it is labelled ['filename'] and every
    column is numeric: the rows record the file name, and the filter on
    dtypes removes that column, the only one that holds strings. *)
Theorem classifier_input_has_no_filename (fs : filesystem content)
    (X : list string) (df : DataFrame num) :
  pipeline_transform fs X = Ok df →
  ("filename" ∉ columns df) ∧
  ∀ label col, (label, col) ∈ df → dtype_is_object col = false.
Proof.
  intros (features & Hdf)%pipeline_transform_Ok.
  by eapply statistics_table_has_no_filename.
Qed.

End PipelineFacts.

(** ** The handler *)

Section HandlerFacts.

Context {content sample array num : Type}.
Context `{!Librosa content sample array} `{!Numpy sample array num}.
Context `{!Joblib content num}.
Implicit Types (w : world content) (req : request content).
Implicit Types (file : upload content).

Lemma dict_get_None {V} (d : list (string * V)) (k : string) :
  dict_get d k = None ↔ k ∉ keys d.
Proof.
  induction d as [|[k' v] d IH]; simpl.
  - split; [intros _ Hin; by apply elem_of_nil in Hin|done].
  - destruct (decide (k = k')) as [->|Hne].
    + split; [done|]. intros Hk. destruct Hk. by left.
    + rewrite IH. unfold keys. split.
      * intros Hk [?|?]%elem_of_cons; done.
      * intros Hk Hin. apply Hk. by right.
Qed.

(** C5. A request without the part ['file'] is answered with status 400
    and a JSON object with the field ['error']; the environment is left
    as it was: no file is written and [predict_condition], hence the
    pipeline, is not called. *)
Theorem missing_file_gives_400 w req :
  "file" ∉ keys (files req) →
  ∃ resp msg,
    (predict w req).1 = Ok resp ∧
    status resp = 400 ∧
    json_field (body resp) "error" = Some (JStr msg) ∧
    (predict w req).2 = w ∧
    saved_paths (trace (predict w req).2) = saved_paths (trace w) ∧
    predicted_paths (trace (predict w req).2) = predicted_paths (trace w).
Proof.
  intros Hfile%dict_get_None. unfold predict. rewrite Hfile. simpl.
  by eexists _, _.
Qed.

(** C6. For a request with the part ['file'] whose upload was written,
    an exception [e] raised by [predict_condition] is answered with
    status 500 and the JSON object [{'error': str(e)}]; in particular,
    when no file exists at ['respiratory_classifier.pkl'] the exception
    is the [FileNotFoundError] of [predict_condition] and the answer
    carries its message. *)
Theorem prediction_error_gives_500 w req file w' :
  dict_get (files req) "file" = Some file →
  file_save w file (upload_path w file) = Ok w' →
  (∀ e, predict_condition (fs w') (upload_path w file)
          "respiratory_classifier.pkl" = Raise e →
        (predict w req).1
        = Ok (Response (JObj [("error", JStr (str_exn e))]) 500)) ∧
  (fs w' !! "respiratory_classifier.pkl" = None →
     (predict w req).1
     = Ok (Response
             (JObj [("error",
                     JStr "Model file not found: respiratory_classifier.pkl")])
             500)).
Proof.
  intros Hfile Hsave.
  assert (∀ e, predict_condition (fs w') (upload_path w file)
                 "respiratory_classifier.pkl" = Raise e →
               (predict w req).1
               = Ok (Response (JObj [("error", JStr (str_exn e))]) 500)) as Hany.
  { intros e He. unfold predict. rewrite Hfile, Hsave. simpl.
    by rewrite He. }
  split; [done|].
  intros Hmodel.
  apply (Hany (FileNotFoundError
                 "Model file not found: respiratory_classifier.pkl")).
  unfold predict_condition, run_model. by rewrite Hmodel.
Qed.

Lemma predict_with_file w req file :
  dict_get (files req) "file" = Some file →
  writable w (upload_path w file) = true →
  ∃ tail,
    (predict w req).2
    = World (<[upload_path w file := stream file]> (fs w)) (writable w)
            (temp_dir w)
            (trace w ++ Saved (upload_path w file) :: tail) ∧
    saved_paths tail = [].
Proof.
  intros Hfile Hw. unfold predict, file_save. rewrite Hfile, Hw. simpl.
  destruct (predict_condition _ _ _) as [r|e]; simpl.
  - eexists. unfold log. simpl. rewrite <- app_assoc. simpl. done.
  - eexists. unfold log. simpl. rewrite <- !app_assoc. simpl. done.
Qed.

Lemma saved_paths_app (tr1 tr2 : list event) :
  saved_paths (tr1 ++ tr2) = saved_paths tr1 ++ saved_paths tr2.
Proof. unfold saved_paths. apply omap_app. Qed.

(** C8. Two requests whose uploads carry the same file name, handled
    one after the other in the same process, are written to the same
    path [os.path.join(tempfile.gettempdir(), filename)]: the path is a
    function of the temporary directory and the file name only, and the
    second upload replaces the first. *)
Theorem same_filename_same_path w req1 req2 file1 file2 :
  dict_get (files req1) "file" = Some file1 →
  dict_get (files req2) "file" = Some file2 →
  filename file1 = filename file2 →
  writable w (Path.join (temp_dir w) (filename file1)) = true →
  let path := Path.join (temp_dir w) (filename file1) in
  let w1 := (predict w req1).2 in
  let w2 := (predict w1 req2).2 in
  upload_path w file1 = path ∧
  upload_path w1 file2 = path ∧
  fs w1 !! path = Some (stream file1) ∧
  fs w2 !! path = Some (stream file2) ∧
  saved_paths (trace w2) = saved_paths (trace w) ++ [path; path].
Proof.
  intros Hf1 Hf2 Hname Hw path w1 w2.
  destruct (predict_with_file w req1 file1 Hf1 Hw) as (t1 & Hw1 & Ht1).
  fold w1 in Hw1.
  assert (upload_path w1 file2 = path) as Hp2.
  { unfold upload_path. rewrite Hw1. simpl. by rewrite <- Hname. }
  assert (writable w1 (upload_path w1 file2) = true) as Hw'.
  { rewrite Hp2, Hw1. done. }
  destruct (predict_with_file w1 req2 file2 Hf2 Hw') as (t2 & Hw2 & Ht2).
  fold w2 in Hw2. rewrite Hp2 in Hw2.
  split_and!; [done|done|..].
  - rewrite Hw1. simpl. apply fs_lookup_insert_eq.
  - rewrite Hw2. simpl. apply fs_lookup_insert_eq.
  - rewrite Hw2. simpl. rewrite Hw1. simpl.
    rewrite !saved_paths_app. simpl. rewrite Ht1, Ht2. simpl.
    by rewrite <- app_assoc.
Qed.

End HandlerFacts.

(** * Concrete runs *)

Module Runs.
Import Demo Demo2.


Lemma statistics_table_excludes_columns_witness :
  FeatureStatisticsCalculator_transform
    (FeatureStatisticsCalculator_init (Some excluded_features)) features1
  = Ok table1 ∧
  ("mel_spectrogram_min" ∉ columns table1) ∧
  ("chroma_stft_max" ∉ columns table1).
Proof.
  split; [reflexivity|].
  apply (statistics_table_excludes_columns features1 table1). reflexivity.
Defined.

Lemma classifier_input_has_no_filename_witness :
  pipeline_transform (fs_with "model3") ["/tmp/cough.wav"] = Ok table2 ∧
  ("filename" ∉ columns table2) ∧
  ∀ label col, (label, col) ∈ table2 → dtype_is_object col = false.
Proof.
  split; [by vm_compute|].
  apply (classifier_input_has_no_filename (fs_with "model3")
           ["/tmp/cough.wav"] table2).
  by vm_compute.
Defined.

Lemma predicted_label_in_label_set_witness :
  run_model (fs_with "model3") "/tmp/cough.wav" model_path
  = Ok (np_int64 3, [1 # 10; 7 # 10; 2 # 10]%Q, np_int64 <$> [0; 3; 6]) ∧
  py_int_of (np_int64 3) = Ok 3 ∧
  0 <= 3 <= 7 ∧
  predict_condition (fs_with "model3") "/tmp/cough.wav" model_path
  = Ok result3 ∧
  prediction result3 ∈ LABELS.
Proof.
  assert (run_model (fs_with "model3") "/tmp/cough.wav" model_path
          = Ok (np_int64 3, [1 # 10; 7 # 10; 2 # 10]%Q, np_int64 <$> [0; 3; 6]))
    as Hrun by (by vm_compute).
  assert (predict_condition (fs_with "model3") "/tmp/cough.wav" model_path
          = Ok result3) as Hr by (by vm_compute).
  split_and!; [done|reflexivity|lia|lia|done|].
  apply (predicted_label_in_label_set _ _ _ _ _ _ 3 _ Hrun eq_refl); [lia|done].
Defined.

(** Counterexample to C2 as stated: a model fitted on nine classes
    answers class 8, and the label returned is the numeral ["8"], which
    is none of the eight labels. *)
Lemma predicted_label_outside_label_set :
  predict_condition (fs_with "model9") "/tmp/cough.wav" model_path
  = Ok result9 ∧
  prediction result9 = "8" ∧
  prediction result9 ∉ LABELS.
Proof.
  split_and!; [by vm_compute|reflexivity|].
  change (prediction result9) with (pretty 8). apply pretty_Z_not_label.
Qed.

Lemma probability_is_max_of_all_probabilities_witness :
  run_model (fs_with "model3") "/tmp/cough.wav" model_path
  = Ok (np_int64 3, [1 # 10; 7 # 10; 2 # 10]%Q, np_int64 <$> [0; 3; 6]) ∧
  NoDup (label_of <$> take (length [1 # 10; 7 # 10; 2 # 10]%Q)
                           (np_int64 <$> [0; 3; 6])) ∧
  (length [1 # 10; 7 # 10; 2 # 10]%Q ≤ length (np_int64 <$> [0; 3; 6]%Z))%nat ∧
  predict_condition (fs_with "model3") "/tmp/cough.wav" model_path
  = Ok result3 ∧
  is_maximum (probability result3) (values (all_probabilities result3)).
Proof.
  assert (NoDup (label_of <$> take (length [1 # 10; 7 # 10; 2 # 10]%Q)
                                   (np_int64 <$> [0; 3; 6]))) as Hnd
    by (change (NoDup [Ok "Asthma"; Ok "COPD"; Ok "Healthy"]); nodup).
  assert (length [1 # 10; 7 # 10; 2 # 10]%Q ≤ length (np_int64 <$> [0; 3; 6]%Z))%nat
    as Hlen by (simpl; lia).
  assert (run_model (fs_with "model3") "/tmp/cough.wav" model_path
          = Ok (np_int64 3, [1 # 10; 7 # 10; 2 # 10]%Q, np_int64 <$> [0; 3; 6]))
    as Hrun by (by vm_compute).
  assert (predict_condition (fs_with "model3") "/tmp/cough.wav" model_path
          = Ok result3) as Hr by (by vm_compute).
  split_and!; [done..|].
  apply (probability_is_max_of_all_probabilities _ _ _ _ _ _ _
           Hrun Hnd Hlen Hr).
Defined.

(** Counterexample to C3 as stated: a model fitted on the string classes
    ['0'] and ['00'] answers the probabilities 0.9 and 0.1; [int] gives
    0 for both classes, the second entry replaces the first under the
    key ['Asthma'], and the returned ['probability'] 0.9 is no value of
    the returned ['all_probabilities'], whose only value is 0.1. *)
Lemma probability_not_in_all_probabilities :
  predict_condition (Joblib0:=joblib_dup) (fs_with "any") "/tmp/cough.wav"
    model_path = Ok result_dup ∧
  probability result_dup = (9 # 10)%Q ∧
  values (all_probabilities result_dup) = [(1 # 10)%Q] ∧
  ¬ is_maximum (probability result_dup) (values (all_probabilities result_dup)).
Proof.
  split_and!; [by vm_compute|done|done|].
  intros [Hin _]. simpl in Hin.
  apply list_elem_of_singleton in Hin. discriminate Hin.
Qed.

Lemma all_probabilities_sum_is_model_sum_witness :
  run_model (fs_with "model3") "/tmp/cough.wav" model_path
  = Ok (np_int64 3, [1 # 10; 7 # 10; 2 # 10]%Q, np_int64 <$> [0; 3; 6]) ∧
  NoDup (label_of <$> take (length [1 # 10; 7 # 10; 2 # 10]%Q)
                           (np_int64 <$> [0; 3; 6])) ∧
  (length [1 # 10; 7 # 10; 2 # 10]%Q ≤ length (np_int64 <$> [0; 3; 6]%Z))%nat ∧
  predict_condition (fs_with "model3") "/tmp/cough.wav" model_path
  = Ok result3 ∧
  (Qabs (Qsum [1 # 10; 7 # 10; 2 # 10] - 1) <= 1 # 1000000000)%Q ∧
  values (all_probabilities result3) = [1 # 10; 7 # 10; 2 # 10]%Q ∧
  (Qabs (Qsum (values (all_probabilities result3)) - 1) <= 1 # 1000000000)%Q.
Proof.
  assert (NoDup (label_of <$> take (length [1 # 10; 7 # 10; 2 # 10]%Q)
                                   (np_int64 <$> [0; 3; 6]))) as Hnd
    by (change (NoDup [Ok "Asthma"; Ok "COPD"; Ok "Healthy"]); nodup).
  assert (length [1 # 10; 7 # 10; 2 # 10]%Q ≤ length (np_int64 <$> [0; 3; 6]%Z))%nat
    as Hlen by (simpl; lia).
  assert (Qabs (Qsum [1 # 10; 7 # 10; 2 # 10] - 1) <= 1 # 1000000000)%Q
    as Hsum by (by vm_compute).
  assert (run_model (fs_with "model3") "/tmp/cough.wav" model_path
          = Ok (np_int64 3, [1 # 10; 7 # 10; 2 # 10]%Q, np_int64 <$> [0; 3; 6]))
    as Hrun by (by vm_compute).
  assert (predict_condition (fs_with "model3") "/tmp/cough.wav" model_path
          = Ok result3) as Hr by (by vm_compute).
  split_and!; [done..| |].
  - apply (all_probabilities_sum_is_model_sum _ _ _ _ _ _ _ (1 # 1000000000)
             Hrun Hnd Hlen Hr).
  - apply (all_probabilities_sum_is_model_sum _ _ _ _ _ _ _ (1 # 1000000000)
             Hrun Hnd Hlen Hr), Hsum.
Defined.

(** Counterexample to C7 as stated: for the model fitted on the string
    classes ['0'] and ['00'] the probabilities 0.9 and 0.1 of the
    classifier sum to 1, but both classes get the key ['Asthma'], and
    the values of the returned ['all_probabilities'] sum to 0.1. *)
Lemma all_probabilities_sum_not_one :
  run_model (Joblib0:=joblib_dup) (fs_with "any") "/tmp/cough.wav" model_path
  = Ok (np_str_0, [9 # 10; 1 # 10]%Q, [np_str_0; np_str_00]) ∧
  (Qsum [9 # 10; 1 # 10] == 1)%Q ∧
  predict_condition (Joblib0:=joblib_dup) (fs_with "any") "/tmp/cough.wav"
    model_path = Ok result_dup ∧
  (Qsum (values (all_probabilities result_dup)) == 1 # 10)%Q ∧
  ¬ (Qabs (Qsum (values (all_probabilities result_dup)) - 1) <= 1 # 2)%Q.
Proof.
  split_and!; [by vm_compute..|]. by vm_compute.
Qed.

Lemma unknown_class_falls_back_to_str_witness :
  run_model (fs_with "model9") "/tmp/cough.wav" model_path
  = Ok (np_int64 8, probs9, classes9) ∧
  probs9 ≠ [] ∧
  py_int_of (np_int64 8) = Ok 8 ∧
  Forall (λ c, ∃ zc, py_int_of c = Ok zc) classes9 ∧
  ∃ r, predict_condition (fs_with "model9") "/tmp/cough.wav" model_path = Ok r ∧
       (LABEL_MAP !! 8 = None → prediction r = py_str (np_int64 8)) ∧
       (∀ c p zc, (c, p) ∈ zip classes9 probs9 →
                  py_int_of c = Ok zc → LABEL_MAP !! zc = None →
                  py_str c ∈ keys (all_probabilities r)).
Proof.
  assert (run_model (fs_with "model9") "/tmp/cough.wav" model_path
          = Ok (np_int64 8, probs9, classes9)) as Hrun by (by vm_compute).
  assert (Forall (λ c, ∃ zc, py_int_of c = Ok zc) classes9) as Hall.
  { unfold classes9. apply Forall_fmap, Forall_forall. intros z _. by exists z. }
  split_and!; [done|done|reflexivity|done|].
  apply (unknown_class_falls_back_to_str _ _ _ _ _ _ 8 Hrun); done.
Defined.

(** Counterexample to C9 as stated: a model fitted on label names
    answers ['COPD']; [int] rejects the class, which is no key of
    [LABEL_MAP], and [predict_condition] raises instead of falling back
    to [str]. *)
Lemma label_name_class_raises :
  run_model (fs_with "model_names") "/tmp/cough.wav" model_path
  = Ok (np_str_COPD, [1%Q], [np_str_COPD]) ∧
  (∀ k, is_Some (LABEL_MAP !! k) → py_int_of np_str_COPD ≠ Ok k) ∧
  py_str np_str_COPD = "COPD" ∧
  predict_condition (fs_with "model_names") "/tmp/cough.wav" model_path
  = Raise (ValueError "invalid literal for int() with base 10: 'COPD'").
Proof. split_and!; [by vm_compute|done|done|by vm_compute]. Qed.

Lemma missing_file_gives_400_witness :
  ("file" ∉ keys (files req_empty)) ∧
  ∃ resp msg,
    (predict world0 req_empty).1 = Ok resp ∧
    status resp = 400 ∧
    json_field (body resp) "error" = Some (JStr msg) ∧
    (predict world0 req_empty).2 = world0 ∧
    saved_paths (trace (predict world0 req_empty).2) = saved_paths (trace world0) ∧
    predicted_paths (trace (predict world0 req_empty).2)
    = predicted_paths (trace world0).
Proof.
  assert ("file" ∉ keys (files req_empty)) as Hno by (simpl; set_solver).
  split; [done|]. apply (missing_file_gives_400 world0 req_empty Hno).
Defined.

Lemma prediction_error_gives_500_witness :
  dict_get (files req_cough) "file" = Some cough ∧
  file_save world_no_model cough (upload_path world_no_model cough)
  = Ok world_no_model_saved ∧
  (∀ e, predict_condition (fs world_no_model_saved)
          (upload_path world_no_model cough)
          "respiratory_classifier.pkl" = Raise e →
        (predict world_no_model req_cough).1
        = Ok (Response (JObj [("error", JStr (str_exn e))]) 500)) ∧
  (fs world_no_model_saved !! "respiratory_classifier.pkl" = None →
     (predict world_no_model req_cough).1
     = Ok (Response
             (JObj [("error",
                     JStr "Model file not found: respiratory_classifier.pkl")])
             500)).
Proof.
  split_and!; [reflexivity|reflexivity|..];
    apply (prediction_error_gives_500 world_no_model req_cough cough
             world_no_model_saved eq_refl eq_refl).
Defined.

Lemma same_filename_same_path_witness :
  dict_get (files req_cough) "file" = Some cough ∧
  dict_get (files req_cough') "file" = Some cough' ∧
  filename cough = filename cough' ∧
  writable world0 (Path.join (temp_dir world0) (filename cough)) = true ∧
  upload_path world0 cough = "/tmp/cough.wav" ∧
  upload_path (predict world0 req_cough).2 cough' = "/tmp/cough.wav" ∧
  fs (predict world0 req_cough).2 !! "/tmp/cough.wav" = Some "RIFF" ∧
  fs (predict (predict world0 req_cough).2 req_cough').2 !! "/tmp/cough.wav"
  = Some "RIFF-other" ∧
  saved_paths (trace (predict (predict world0 req_cough).2 req_cough').2)
  = saved_paths (trace world0) ++ ["/tmp/cough.wav"; "/tmp/cough.wav"].
Proof.
  split_and!; [reflexivity..|].
  apply (same_filename_same_path world0 req_cough req_cough' cough cough'
           eq_refl eq_refl eq_refl eq_refl).
Defined.

End Runs.

(** * Further properties *)

(** ** Paths *)

Section PathFacts.

Lemma append_cons (c : ascii) (s t : string) :
  String c s +:+ t = String c (s +:+ t).
Proof. reflexivity. Qed.

Lemma basename_go_app (acc s t : string) :
  Path.basename_go acc (s +:+ t) = Path.basename_go (Path.basename_go acc s) t.
Proof.
  revert acc. induction s as [|c s IH]; intros acc; [done|].
  rewrite append_cons. simpl. destruct (decide (c = Path.slash)); apply IH.
Qed.

Lemma basename_go_ends_with_slash (acc a : string) :
  Path.ends_with_slash a = true → Path.basename_go acc a = "".
Proof.
  revert acc. induction a as [|c a IH]; intros acc; [done|].
  destruct a as [|c' a].
  - simpl. intros Hc%bool_decide_eq_true. by rewrite decide_True.
  - intros Hends. change (Path.ends_with_slash (String c' a) = true) in Hends.
    change (Path.basename_go acc (String c (String c' a)))
      with (if decide (c = Path.slash) then Path.basename_go "" (String c' a)
            else Path.basename_go (acc +:+ String c "") (String c' a)).
    destruct (decide (c = Path.slash)); by apply IH.
Qed.

(** [basename(join(a, b)) = basename(b)] for every directory [a] and
    name [b]. *)
Lemma basename_join (a b : string) :
  Path.basename (Path.join a b) = Path.basename b.
Proof.
  unfold Path.join, Path.basename.
  destruct (Path.starts_with_slash b); [done|].
  destruct (bool_decide (a = "")) eqn:Ha; simpl.
  - apply bool_decide_eq_true in Ha as ->. done.
  - destruct (Path.ends_with_slash a) eqn:Hends.
    + rewrite basename_go_app. by rewrite (basename_go_ends_with_slash _ _ Hends).
    + rewrite basename_go_app. reflexivity.
Qed.

End PathFacts.

(** ** Loading, trimming and feature extraction *)

Section LoaderFacts.

Context {content sample array num : Type}.
Context `{!Librosa content sample array} `{!Numpy sample array num}.
Implicit Types (fs : filesystem content) (X : list string).
Implicit Types (acc loaded : list (string * audio_info sample)).

Lemma dict_get_dict_set_eq {V} (d : list (string * V)) (k : string) (v : V) :
  dict_get (dict_set d k v) k = Some v.
Proof.
  induction d as [|[k' v'] d IH]; simpl.
  - by rewrite decide_True.
  - destruct (decide (k = k')) as [->|Hne]; simpl.
    + by rewrite decide_True.
    + by rewrite decide_False.
Qed.

Lemma AudioLoader_loop_app fs (X1 X2 : list string) acc :
  AudioLoader_loop fs (X1 ++ X2) acc
  = (acc1 ← AudioLoader_loop fs X1 acc; AudioLoader_loop fs X2 acc1).
Proof.
  revert acc. induction X1 as [|p X1 IH]; intros acc; simpl; [done|].
  destruct (librosa_load fs p) as [[y sr]|]; simpl; [apply IH|done].
Qed.

Lemma AudioLoader_loop_keys fs X acc loaded :
  AudioLoader_loop fs X acc = Ok loaded →
  ∀ k, k ∈ keys loaded ↔ k ∈ keys acc ∨ k ∈ Path.basename <$> X.
Proof.
  revert acc. induction X as [|p X IH]; intros acc; simpl.
  - intros [= ->] k. rewrite elem_of_nil. naive_solver.
  - destruct (librosa_load fs p) as [[y sr]|]; [|done]. simpl.
    intros Hloop k. rewrite (IH _ Hloop k), elem_of_keys_dict_set, elem_of_cons.
    naive_solver.
Qed.

Lemma AudioLoader_loop_keys_fresh fs X acc loaded :
  AudioLoader_loop fs X acc = Ok loaded →
  NoDup (keys acc ++ (Path.basename <$> X)) →
  keys loaded = keys acc ++ (Path.basename <$> X).
Proof.
  revert acc. induction X as [|p X IH]; intros acc; simpl.
  - intros [= ->] _. by rewrite app_nil_r.
  - destruct (librosa_load fs p) as [[y sr]|]; [|done]. simpl.
    intros Hloop Hnd.
    assert (Path.basename p ∉ keys acc) as Hfresh.
    { apply NoDup_app in Hnd as (_ & Hdisj & _).
      intros Hin. apply (Hdisj _ Hin). by left. }
    rewrite (IH _ Hloop); rewrite keys_dict_set_fresh by done.
    + by rewrite <- app_assoc.
    + by rewrite <- app_assoc.
Qed.

Lemma AudioLoader_loop_get_other fs X acc loaded (k : string) :
  AudioLoader_loop fs X acc = Ok loaded →
  k ∉ Path.basename <$> X →
  dict_get loaded k = dict_get acc k.
Proof.
  revert acc. induction X as [|p X IH]; intros acc; simpl.
  - by intros [= ->] _.
  - destruct (librosa_load fs p) as [[y sr]|]; [|done]. simpl.
    intros Hloop Hk. apply not_elem_of_cons in Hk as [Hne Hk].
    rewrite (IH _ Hloop Hk). by apply dict_get_dict_set_ne.
Qed.

(** X1. The pipeline files the upload under the basename of the file name
    that was sent: whatever the temporary directory, the dictionary that
    [AudioLoader.transform] makes of the upload path has the single key
    [basename(file.filename)]. *)
Theorem upload_key_is_basename (w : world content) (file : upload content) fs
    loaded :
  AudioLoader_transform fs [upload_path w file] = Ok loaded →
  keys loaded = [Path.basename (filename file)].
Proof.
  intros Hl. rewrite (AudioLoader_loop_keys_fresh _ _ _ _ Hl).
  - simpl. unfold upload_path. by rewrite basename_join.
  - simpl. apply NoDup_singleton.
Qed.

(** X2. When [AudioLoader.transform] returns, the keys of its dictionary
    are exactly the basenames of the given paths, each once; when the
    basenames are pairwise distinct they come in the order of the paths. *)
Theorem AudioLoader_keys fs X loaded :
  AudioLoader_transform fs X = Ok loaded →
  NoDup (keys loaded) ∧
  (∀ k, k ∈ keys loaded ↔ k ∈ Path.basename <$> X) ∧
  (NoDup (Path.basename <$> X) → keys loaded = Path.basename <$> X).
Proof.
  intros Hl. split_and!.
  - by eapply AudioLoader_transform_NoDup.
  - intros k. rewrite (AudioLoader_loop_keys _ _ _ _ Hl k).
    simpl. rewrite elem_of_nil. naive_solver.
  - intros Hnd. by rewrite (AudioLoader_loop_keys_fresh _ _ _ _ Hl).
Qed.

(** X3. Paths are filed under their basename only: of several paths with
    the same basename the last one wins. If [p] is followed by no path
    with its basename and decodes to [(y, sr)], the entry under
    [basename(p)] is that waveform, whatever came before. *)
Theorem AudioLoader_last_wins fs (pre post : list string) (p : string)
    (y : list sample) (sr : Z) loaded :
  AudioLoader_transform fs (pre ++ p :: post) = Ok loaded →
  librosa_load fs p = Ok (y, sr) →
  Path.basename p ∉ Path.basename <$> post →
  dict_get loaded (Path.basename p) = Some (AudioInfo y sr).
Proof.
  unfold AudioLoader_transform. rewrite AudioLoader_loop_app.
  destruct (AudioLoader_loop fs pre []) as [acc1|]; [|done]. simpl.
  intros Hloop Hp Hpost. rewrite Hp in Hloop. simpl in Hloop.
  rewrite (AudioLoader_loop_get_other _ _ _ _ _ Hloop Hpost).
  apply dict_get_dict_set_eq.
Qed.

(** X4. One file that cannot be loaded fails the whole batch: if the
    paths before [p] load and [p] raises [e], the transform raises [e]
    and returns nothing for the files already loaded. *)
Theorem AudioLoader_first_failure fs (pre post : list string) (p : string)
    (e : exn) :
  Forall (λ q, ∃ r, librosa_load fs q = Ok r) pre →
  librosa_load fs p = Raise e →
  AudioLoader_transform fs (pre ++ p :: post) = Raise e.
Proof.
  intros Hpre Hp. unfold AudioLoader_transform. generalize (@nil (string * audio_info sample)).
  induction Hpre as [|q pre [[y sr] Hq] _ IH]; intros acc; simpl.
  - by rewrite Hp.
  - rewrite Hq. simpl. apply IH.
Qed.

(** X5. A target that comes out negative is not an error: the trimmer
    then drops [-target] samples from the end of the waveform (all of
    them when it is shorter), because the stop of the slice counts from
    the end. *)
Theorem AudioTrimmer_negative_target (td : number) (a : audio_info sample)
    (target : Z) :
  target_samples td (sample_rate a) = Ok target →
  target < 0 →
  ∃ out,
    trim_entry td a = Ok out ∧
    t_data out = take (Z.to_nat (len (data a) + target)) (data a) ∧
    len (t_data out) = Z.max 0 (len (data a) + target).
Proof.
  intros Ht Hneg. rewrite (trim_entry_of_target _ _ _ Ht).
  eexists. split; [done|]. simpl.
  assert (0 <= len (data a)) as Hlen by (unfold len; lia).
  rewrite (proj2 (Z.ltb_ge _ _)) by lia.
  unfold slice_to. rewrite (proj2 (Z.ltb_lt _ _)) by done.
  split; [done|]. unfold len in *. rewrite length_take. lia.
Qed.

(** X6. Trimming is idempotent: for a target that is not negative,
    trimming the trimmed waveform again at the same rate and duration
    returns it unchanged. *)
Theorem AudioTrimmer_idempotent (td : number) (a : audio_info sample)
    (target : Z) :
  target_samples td (sample_rate a) = Ok target →
  0 <= target →
  ∃ out,
    trim_entry td a = Ok out ∧
    trim_entry td (AudioInfo (t_data out) (t_sample_rate out)) = Ok out.
Proof.
  intros Ht Hpos. rewrite (trim_entry_of_target _ _ _ Ht).
  eexists. split; [done|]. simpl.
  destruct (trim_data_nonneg (data a) target Hpos) as (Hlen & _ & _).
  simpl in Hlen.
  remember (if len (data a) <? target
            then np_pad_after (data a) (target - len (data a))
            else slice_to (data a) target) as d' eqn:Hd'.
  clear Hd'.
  rewrite (trim_entry_of_target td (AudioInfo d' (sample_rate a)) target Ht).
  simpl. rewrite Hlen, Z.ltb_irrefl.
  rewrite slice_to_nonneg by done.
  rewrite take_ge; [done|]. unfold len in Hlen. lia.
Qed.

End LoaderFacts.

Section ExtractorFacts.

Context {content sample array num : Type}.
Context `{!Librosa content sample array} `{!Numpy sample array num}.
Implicit Types (X : list (string * trimmed_info sample)).
Implicit Types (F : list (string * list (string * array))).

Lemma extract_entry_keys (audio : trimmed_info sample)
    (fs : list (string * array)) :
  extract_entry audio = Ok fs → keys fs = feature_names.
Proof.
  unfold extract_entry.
  destruct (chroma_stft _ _); [|done]. simpl.
  destruct (mfcc _ _ _); [|done]. simpl.
  destruct (melspectrogram _ _); [|done]. simpl.
  destruct (spectral_contrast _ _); [|done]. simpl.
  destruct (spectral_centroid _ _); [|done]. simpl.
  destruct (spectral_bandwidth _ _); [|done]. simpl.
  destruct (spectral_rolloff _ _); [|done]. simpl.
  destruct (zero_crossing_rate _); [|done]. simpl.
  by intros [= <-].
Qed.

Lemma Forall_dict_set {V} (P : string * V → Prop) (d : list (string * V))
    (k : string) (v : V) :
  Forall P d → P (k, v) → Forall P (dict_set d k v).
Proof.
  intros Hd Hkv. induction Hd as [|[k' v'] d Hx Hd IH]; simpl.
  - by apply Forall_singleton.
  - destruct (decide (k = k')); apply Forall_cons; done.
Qed.

Lemma FeatureExtractor_loop_spec X F (acc : list (string * list (string * array))) :
  FeatureExtractor_loop X acc = Ok F →
  (∀ k, k ∈ keys F ↔ k ∈ keys acc ∨ k ∈ keys X) ∧
  (Forall (λ e, keys e.2 = feature_names) acc →
   Forall (λ e, keys e.2 = feature_names) F) ∧
  (NoDup (keys acc ++ keys X) → keys F = keys acc ++ keys X).
Proof.
  revert acc. induction X as [|[k a] X IH]; intros acc; simpl.
  - intros [= ->]. split_and!; [|done|].
    + intros k. rewrite elem_of_nil. naive_solver.
    + by rewrite app_nil_r.
  - destruct (extract_entry a) as [fs|] eqn:Hfs; [|done]. simpl.
    intros Hloop. destruct (IH _ Hloop) as (Hkeys & Hnames & Hfresh).
    split_and!.
    + intros k'. rewrite Hkeys, elem_of_keys_dict_set, elem_of_cons.
      naive_solver.
    + intros Hacc. apply Hnames. apply Forall_dict_set; [done|].
      by apply extract_entry_keys in Hfs.
    + intros Hnd.
      assert (k ∉ keys acc) as Hk.
      { apply NoDup_app in Hnd as (_ & Hdisj & _).
        intros Hin. apply (Hdisj _ Hin). by left. }
      rewrite Hfresh; rewrite keys_dict_set_fresh by done;
        by rewrite <- app_assoc.
Qed.

(** X7. When [FeatureExtractor.transform] returns, its dictionary has the
    keys of its input and every entry holds exactly the eight features
    [chroma_stft], [mfcc], [mel_spectrogram], [spectral_contrast],
    [spectral_centroid], [spectral_bandwidth], [spectral_rolloff] and
    [zero_crossing_rate], in this order. *)
Theorem FeatureExtractor_features X F :
  FeatureExtractor_transform X = Ok F →
  (∀ k, k ∈ keys F ↔ k ∈ keys X) ∧
  ∀ k fs, (k, fs) ∈ F → keys fs = feature_names.
Proof.
  intros HF. destruct (FeatureExtractor_loop_spec _ _ _ HF) as (Hkeys & Hnames & _).
  split.
  - intros k. rewrite Hkeys. simpl. rewrite elem_of_nil. naive_solver.
  - intros k fs Hin.
    apply (proj1 (Forall_forall _ _) (Hnames (Forall_nil_2 _)) _ Hin).
Qed.

End ExtractorFacts.

(** ** The table of statistics *)

Section TableFacts.

Context {sample array num : Type} `{!Numpy sample array num}.
Implicit Types (df : DataFrame num) (row : list (string * cell num)).
Implicit Types (rows : list (list (string * cell num))).
Implicit Types (X : list (string * list (string * array))).

Lemma filter_all {A} (P : A → Prop) `{!∀ x, Decision (P x)} (l : list A) :
  (∀ x, x ∈ l → P x) → filter P l = l.
Proof.
  induction l as [|x l IH]; intros Hall; [done|].
  rewrite filter_cons_True by (apply Hall; by left).
  f_equal. apply IH. intros y Hy. apply Hall. by right.
Qed.

(** The loop over the excluded names is one filter. *)
Lemma drop_excluded_filter (excluded : list string) df :
  drop_excluded excluded df = filter (λ c, c.1 ∉ excluded) df.
Proof.
  unfold drop_excluded. revert df.
  induction excluded as [|f excluded IH]; intros df; simpl.
  - symmetry. apply filter_all. intros c _. apply not_elem_of_nil.
  - assert ((if decide (f ∈ columns df) then df_drop f df else df)
            = filter (λ c, c.1 ≠ f) df) as ->.
    { destruct (decide (f ∈ columns df)) as [Hin|Hout]; [done|].
      symmetry. apply filter_all. intros c Hc Heq. apply Hout.
      unfold columns. apply list_elem_of_fmap. by exists c. }
    rewrite IH. etrans; [apply list_filter_filter|]. apply list_filter_iff.
    intros c. rewrite not_elem_of_cons. naive_solver.
Qed.

Lemma feature_stats_loop_length X rows rows' :
  feature_stats_loop X rows = Ok rows' →
  length rows' = (length rows + length X)%nat.
Proof.
  revert rows. induction X as [|[filename features] X IH]; intros rows; simpl.
  - intros [= ->]. lia.
  - destruct (file_stats_loop features _) as [row|]; [|done]. simpl.
    intros Hloop. rewrite (IH _ Hloop), length_app. simpl. lia.
Qed.

Lemma feature_stats_loop_rows X rows rows' row :
  feature_stats_loop X rows = Ok rows' →
  row ∈ rows' →
  row ∈ rows ∨
  ∃ filename features,
    (filename, features) ∈ X ∧
    file_stats_loop features [("filename", Obj filename)] = Ok row.
Proof.
  revert rows. induction X as [|[filename features] X IH]; intros rows; simpl.
  - intros [= ->] Hin. by left.
  - destruct (file_stats_loop features _) as [row1|] eqn:Hrow1; [|done]. simpl.
    intros Hloop Hin. destruct (IH _ Hloop Hin) as [Hacc|(fn & fs & Hx & Hr)].
    + apply elem_of_app in Hacc as [?|Hs]; [by left|].
      apply list_elem_of_singleton in Hs as ->.
      right. exists filename, features. split; [by left|done].
    + right. exists fn, fs. split; [by right|done].
Qed.

Lemma add_feature_stats_keys row (feature_name : string) (d : array) row' :
  add_feature_stats row feature_name d = Ok row' →
  ∀ k, k ∈ keys row' → k ∈ keys row ∨ k ∈ stat_keys feature_name.
Proof.
  unfold add_feature_stats.
  destruct (np_max d) as [mx|]; [|done]. simpl.
  destruct (np_min d) as [mn|]; [|done]. simpl.
  intros [= <-] k. rewrite !elem_of_keys_dict_set. unfold stat_keys.
  rewrite !elem_of_cons. naive_solver.
Qed.

Lemma file_stats_loop_keys (features : list (string * array)) row row' :
  file_stats_loop features row = Ok row' →
  ∀ k, k ∈ keys row' →
       k ∈ keys row ∨
       ∃ feature_name, feature_name ∈ keys features ∧ k ∈ stat_keys feature_name.
Proof.
  revert row. induction features as [|[name d] features IH]; intros row; simpl.
  - intros [= ->] k Hk. by left.
  - destruct (add_feature_stats row name d) as [row1|] eqn:Hadd; [|done].
    simpl. intros Hloop k Hk.
    destruct (IH _ Hloop k Hk) as [Hrow1|(fname & Hf & Hs)].
    + destruct (add_feature_stats_keys _ _ _ _ Hadd k Hrow1) as [?|?];
        [by left|].
      right. exists name. split; [by left|done].
    + right. exists fname. split; [by right|done].
Qed.

Lemma elem_of_add_labels (labels : list string) row (k : string) :
  k ∈ add_labels labels row ↔ k ∈ labels ∨ k ∈ keys row.
Proof.
  unfold add_labels. generalize (keys row) as ks. intros ks.
  revert labels. induction ks as [|k' ks IH]; intros labels; simpl.
  - rewrite elem_of_nil. naive_solver.
  - rewrite IH. destruct (decide (k' ∈ labels)).
    + rewrite elem_of_cons. naive_solver.
    + rewrite elem_of_app, list_elem_of_singleton, elem_of_cons. naive_solver.
Qed.

Lemma elem_of_labels rows (labels : list string) (k : string) :
  k ∈ fold_left add_labels rows labels ↔
  k ∈ labels ∨ ∃ row, row ∈ rows ∧ k ∈ keys row.
Proof.
  revert labels. induction rows as [|row rows IH]; intros labels; simpl.
  - split; [by left|]. intros [?|(row & Hin & _)]; [done|].
    by apply elem_of_nil in Hin.
  - rewrite IH, elem_of_add_labels. split.
    + intros [[?|?]|(r & Hr & Hk)]; [by left|right..].
      * exists row. split; [by left|done].
      * exists r. split; [by right|done].
    + intros [?|(r & [->|Hr]%elem_of_cons & Hk)].
      * left. by left.
      * left. by right.
      * right. by exists r.
Qed.

(** X8. Excluding features only filters: the table computed with a list
    of excluded names is the table computed without exclusions, with the
    columns of those names removed and the others kept in order. *)
Theorem excluded_features_only_filter (excluded : list string) X df :
  FeatureStatisticsCalculator_transform excluded X = Ok df →
  ∃ df0,
    FeatureStatisticsCalculator_transform
      (FeatureStatisticsCalculator_init None) X = Ok df0 ∧
    df = filter (λ c, c.1 ∉ excluded) df0.
Proof.
  intros (rows & Hrows & ->)%FeatureStatisticsCalculator_transform_Ok.
  exists (select_dtypes_exclude_object (pd_DataFrame rows)). split.
  - unfold FeatureStatisticsCalculator_transform. rewrite Hrows. done.
  - rewrite drop_excluded_filter. unfold select_dtypes_exclude_object.
    etrans; [apply list_filter_filter|]. symmetry.
    etrans; [apply list_filter_filter|]. apply list_filter_iff. naive_solver.
Qed.

(** X9. Every column of the table has one cell per entry of the input
    dictionary. *)
Theorem statistics_table_column_length (excluded : list string) X df
    (label : string) (col : list (cell num)) :
  FeatureStatisticsCalculator_transform excluded X = Ok df →
  (label, col) ∈ df →
  length col = length X.
Proof.
  intros (rows & Hrows & ->)%FeatureStatisticsCalculator_transform_Ok Hin.
  apply select_dtypes_subseteq, drop_excluded_subseteq in Hin.
  unfold pd_DataFrame in Hin.
  apply list_elem_of_fmap in Hin as (k & [= -> ->] & _).
  rewrite length_fmap. by rewrite (feature_stats_loop_length _ _ _ Hrows).
Qed.

(** X10. Only statistics of features reach the table: every column label
    is [feature_name + suffix] for a feature of some input entry and a
    suffix among [_mean], [_std], [_max], [_min]. *)
Theorem statistics_table_labels (excluded : list string) X df (label : string) :
  FeatureStatisticsCalculator_transform excluded X = Ok df →
  label ∈ columns df →
  ∃ filename features feature_name,
    (filename, features) ∈ X ∧
    feature_name ∈ keys features ∧
    label ∈ stat_keys feature_name.
Proof.
  intros Hdf Hlabel.
  assert (label ≠ "filename") as Hne.
  { intros ->. by apply (statistics_table_has_no_filename _ _ _ Hdf). }
  apply FeatureStatisticsCalculator_transform_Ok in Hdf as (rows & Hrows & ->).
  apply (columns_mono _ _ (select_dtypes_subseteq _)) in Hlabel.
  apply (columns_mono _ _ (drop_excluded_subseteq _ _)) in Hlabel.
  unfold columns, pd_DataFrame in Hlabel.
  rewrite <- list_fmap_compose in Hlabel.
  apply list_elem_of_fmap in Hlabel as (k & -> & Hk). simpl in *.
  apply elem_of_labels in Hk as [Hk|(row & Hrow & Hk)];
    [by apply elem_of_nil in Hk|].
  destruct (feature_stats_loop_rows _ _ _ _ Hrows Hrow)
    as [Hnil|(filename & features & Hx & Hloop)];
    [by apply elem_of_nil in Hnil|].
  destruct (file_stats_loop_keys _ _ _ Hloop k Hk) as [Hfn|(fname & Hf & Hs)].
  - simpl in Hfn. apply list_elem_of_singleton in Hfn. done.
  - by exists filename, features, fname.
Qed.

End TableFacts.

(** ** The columns handed to the classifier *)

Section ColumnFacts.

Context {content sample array num : Type}.
Context `{!Librosa content sample array} `{!Numpy sample array num}.
Implicit Types (df : DataFrame num) (row : list (string * cell num)).
Implicit Types (rows : list (list (string * cell num))).

Lemma add_feature_stats_shape row (feature_name : string) (d : array) row' :
  add_feature_stats row feature_name d = Ok row' →
  NoDup (keys row ++ stat_keys feature_name) →
  ∃ cells, row' = row ++ cells ∧ keys cells = stat_keys feature_name ∧
           Forall (λ kv, is_Num kv.2) cells.
Proof.
  unfold add_feature_stats.
  destruct (np_max d) as [mx|]; [|done]. simpl.
  destruct (np_min d) as [mn|]; [|done]. simpl.
  intros [= <-] Hnd.
  apply NoDup_app in Hnd as (_ & Hdisj & Hks).
  unfold stat_keys in *.
  apply NoDup_cons in Hks as (H1 & Hks).
  apply NoDup_cons in Hks as (H2 & Hks).
  apply NoDup_cons in Hks as (H3 & _).
  assert (∀ k, k ∈ stat_keys feature_name → k ∉ keys row) as Hfresh.
  { intros k Hk Hin. by apply (Hdisj k Hin). }
  unfold stat_keys in Hfresh.
  exists [(feature_name +:+ "_mean", Num (np_mean d));
          (feature_name +:+ "_std", Num (np_std d));
          (feature_name +:+ "_max", Num mx);
          (feature_name +:+ "_min", Num mn)].
  split_and!; [|done|repeat constructor; by eexists].
  assert (feature_name +:+ "_mean" ∉ keys row) as F1 by (apply Hfresh; set_solver).
  assert (feature_name +:+ "_std" ∉ keys row) as F2 by (apply Hfresh; set_solver).
  assert (feature_name +:+ "_max" ∉ keys row) as F3 by (apply Hfresh; set_solver).
  assert (feature_name +:+ "_min" ∉ keys row) as F4 by (apply Hfresh; set_solver).
  rewrite (dict_set_fresh row) by done.
  rewrite (dict_set_fresh (_ ++ _)).
  2:{ unfold keys in *. rewrite fmap_app, elem_of_app. simpl.
      intros [Hin|Hin]; [done|set_solver]. }
  rewrite (dict_set_fresh (_ ++ _)).
  2:{ unfold keys in *. rewrite !fmap_app, !elem_of_app. simpl.
      intros [[Hin|Hin]|Hin]; [done|set_solver..]. }
  rewrite (dict_set_fresh (_ ++ _)).
  2:{ unfold keys in *. rewrite !fmap_app, !elem_of_app. simpl.
      intros [[[Hin|Hin]|Hin]|Hin]; [done|set_solver..]. }
  by rewrite <- !app_assoc.
Qed.

Lemma file_stats_loop_shape (features : list (string * array)) row row' :
  file_stats_loop features row = Ok row' →
  NoDup (keys row ++ concat (stat_keys <$> keys features)) →
  ∃ cells, row' = row ++ cells ∧
           keys cells = concat (stat_keys <$> keys features) ∧
           Forall (λ kv, is_Num kv.2) cells.
Proof.
  revert row. induction features as [|[name d] features IH]; intros row; simpl.
  - intros [= ->] _. exists []. by rewrite app_nil_r.
  - destruct (add_feature_stats row name d) as [row1|] eqn:Hadd; [|done].
    simpl. intros Hloop Hnd.
    change (NoDup (keys row ++ (stat_keys name
                                ++ concat (stat_keys <$> keys features)))) in Hnd.
    rewrite app_assoc in Hnd.
    destruct (add_feature_stats_shape _ _ _ _ Hadd) as (c1 & -> & Hk1 & Hn1).
    { by apply NoDup_app in Hnd as (? & _ & _). }
    destruct (IH _ Hloop) as (c2 & -> & Hk2 & Hn2).
    { unfold keys in *. by rewrite fmap_app, Hk1. }
    exists (c1 ++ c2). split_and!.
    + by rewrite <- app_assoc.
    + unfold keys in *. by rewrite fmap_app, Hk1, Hk2.
    + by apply Forall_app.
Qed.

Lemma add_labels_fresh (labels : list string) row :
  NoDup (labels ++ keys row) → add_labels labels row = labels ++ keys row.
Proof.
  unfold add_labels. generalize (keys row) as ks. intros ks.
  revert labels. induction ks as [|k ks IH]; intros labels Hnd; simpl.
  - by rewrite app_nil_r.
  - assert (k ∉ labels) as Hk.
    { apply NoDup_app in Hnd as (_ & Hdisj & _).
      intros Hin. apply (Hdisj _ Hin). by left. }
    rewrite decide_False by done. rewrite IH; rewrite <- app_assoc; done.
Qed.

Lemma add_labels_present (labels : list string) row :
  keys row ⊆ labels → add_labels labels row = labels.
Proof.
  unfold add_labels. generalize (keys row) as ks. intros ks.
  induction ks as [|k ks IH]; intros Hsub; simpl; [done|].
  rewrite decide_True by (apply Hsub; by left).
  apply IH. intros x Hx. apply Hsub. by right.
Qed.

Lemma uniform_row_keys (K : list string) row :
  uniform_row K row → keys row = "filename" :: K.
Proof. intros (fn & cells & -> & <- & _). done. Qed.

Lemma labels_uniform (K : list string) rows :
  rows ≠ [] → Forall (uniform_row K) rows → NoDup ("filename" :: K) →
  fold_left add_labels rows [] = "filename" :: K.
Proof.
  intros Hne Hrows Hnd. destruct rows as [|row rows]; [done|].
  apply Forall_cons in Hrows as [Hrow Hrows]. simpl.
  rewrite add_labels_fresh; rewrite (uniform_row_keys _ _ Hrow); [|done].
  simpl. clear Hrow Hne.
  induction Hrows as [|r rows Hr _ IH]; simpl; [done|].
  rewrite add_labels_present; [done|].
  by rewrite (uniform_row_keys _ _ Hr).
Qed.

Lemma dict_get_elem_of {V} (d : list (string * V)) (k : string) :
  k ∈ keys d → ∃ v, dict_get d k = Some v ∧ (k, v) ∈ d.
Proof.
  induction d as [|[k' v'] d IH]; simpl.
  - by intros ?%elem_of_nil.
  - intros Hk. destruct (decide (k = k')) as [->|Hne].
    + exists v'. split; [done|by left].
    + apply elem_of_cons in Hk as [?|Hk]; [done|].
      destruct (IH Hk) as (v & Hv & Hin). exists v. split; [done|by right].
Qed.

Lemma uniform_row_get (K : list string) row (k : string) :
  uniform_row K row → "filename" ∉ K → k ∈ K →
  ∃ x, dict_get row k = Some (Num x).
Proof.
  intros (fn & cells & -> & <- & Hnum) Hfn Hk. simpl.
  rewrite decide_False by (by intros ->).
  destruct (dict_get_elem_of cells k Hk) as (v & Hv & Hin).
  destruct (proj1 (Forall_forall _ _) Hnum _ Hin) as [x Hx].
  simpl in Hx. subst v. by exists x.
Qed.

Lemma uniform_column_is_Num (K : list string) rows (k : string) :
  Forall (uniform_row K) rows → "filename" ∉ K → k ∈ K →
  Forall is_Num ((λ row, default NaN (dict_get row k)) <$> rows).
Proof.
  intros Hrows Hfn Hk. apply Forall_fmap.
  eapply Forall_impl; [exact Hrows|]. intros row Hrow. simpl.
  destruct (uniform_row_get _ _ _ Hrow Hfn Hk) as [x ->]. by exists x.
Qed.

Lemma is_Num_not_object (col : list (cell num)) :
  Forall is_Num col → dtype_is_object col = false.
Proof.
  induction 1 as [|c col [x ->] _ IH]; [done|]. simpl. exact IH.
Qed.

Lemma filter_fmap_columns (excluded K : list string)
    (g : string → list (cell num)) :
  (∀ k, k ∈ K → dtype_is_object (g k) = false) →
  filter (λ c, dtype_is_object c.2 = false ∧ c.1 ∉ excluded)
         ((λ k, (k, g k)) <$> K)
  = (λ k, (k, g k)) <$> filter (λ k, k ∉ excluded) K.
Proof.
  induction K as [|k K IH]; intros Hg; [done|].
  rewrite fmap_cons.
  assert (∀ k', k' ∈ K → dtype_is_object (g k') = false) as Hg'
    by (intros k' Hk'; apply Hg; by right).
  destruct (decide (k ∈ excluded)) as [Hin|Hout].
  - rewrite filter_cons_False by (simpl; naive_solver).
    rewrite (filter_cons_False _ k) by naive_solver. by apply IH.
  - rewrite filter_cons_True by (simpl; split; [apply Hg; by left|done]).
    rewrite (filter_cons_True _ k) by done. rewrite fmap_cons.
    f_equal. by apply IH.
Qed.

(** When every row has the same keys, the table is made of the columns of
    those keys that are not excluded, in order, without the file names. *)
Lemma uniform_table (excluded K : list string) rows :
  rows ≠ [] → Forall (uniform_row K) rows → NoDup ("filename" :: K) →
  select_dtypes_exclude_object (drop_excluded excluded (pd_DataFrame rows))
  = (λ k, (k, (λ row, default NaN (dict_get row k)) <$> rows))
    <$> filter (λ k, k ∉ excluded) K.
Proof.
  intros Hne Hrows Hnd.
  apply NoDup_cons in Hnd as Hfn. destruct Hfn as [Hfn _].
  rewrite drop_excluded_filter. unfold select_dtypes_exclude_object.
  etrans; [apply list_filter_filter|].
  unfold pd_DataFrame. rewrite (labels_uniform K) by done.
  rewrite fmap_cons. rewrite filter_cons_False.
  - apply filter_fmap_columns. intros k Hk.
    apply is_Num_not_object. by eapply uniform_column_is_Num.
  - simpl. intros [Hobj _].
    assert (dtype_is_object
              ((λ row, default NaN (dict_get row "filename")) <$> rows) = true);
      [|congruence].
    destruct rows as [|row rows]; [done|].
    apply Forall_cons in Hrows as [(fn & cells & -> & _) _]. done.
Qed.

End ColumnFacts.

Section PipelineColumns.

Context {content sample array num : Type}.
Context `{!Librosa content sample array} `{!Numpy sample array num}.
Implicit Types (fs : filesystem content) (X : list string).
Implicit Types (df : DataFrame num).

Lemma all_stat_keys_NoDup : NoDup ("filename" :: all_stat_keys).
Proof. apply (bool_decide_unpack _). by vm_compute. Qed.

Lemma classifier_columns_eq :
  filter (λ k, k ∉ excluded_features) all_stat_keys = classifier_columns.
Proof. by vm_compute. Qed.

Lemma pipeline_rows_uniform (F : list (string * list (string * array)))
    (rows : list (list (string * cell num))) :
  (∀ k features, (k, features) ∈ F → keys features = feature_names) →
  feature_stats_loop F [] = Ok rows →
  Forall (uniform_row all_stat_keys) rows.
Proof.
  intros HF Hrows. apply Forall_forall. intros row Hrow.
  destruct (feature_stats_loop_rows _ _ _ _ Hrows Hrow)
    as [Hnil|(filename & features & Hin & Hloop)];
    [by apply elem_of_nil in Hnil|].
  pose proof (HF _ _ Hin) as Hnames.
  destruct (file_stats_loop_shape _ _ _ Hloop) as (cells & -> & Hk & Hnum).
  { rewrite Hnames. apply all_stat_keys_NoDup. }
  exists filename, cells. split_and!; [done| |done].
  by rewrite Hk, Hnames.
Qed.

Lemma pipeline_transform_inv fs X df :
  pipeline_transform fs X = Ok df →
  ∃ loaded rows,
    AudioLoader_transform fs X = Ok loaded ∧
    length rows = length loaded ∧
    Forall (uniform_row all_stat_keys) rows ∧
    df = select_dtypes_exclude_object
           (drop_excluded excluded_features (pd_DataFrame rows)).
Proof.
  unfold pipeline_transform.
  destruct (AudioLoader_transform fs X) as [loaded|] eqn:Hl; [|done]. simpl.
  destruct (AudioTrimmer_transform _ loaded) as [trimmed|] eqn:Ht; [|done].
  simpl.
  destruct (FeatureExtractor_transform _) as [F|] eqn:HF; [|done]. simpl.
  intros (rows & Hrows & ->)%FeatureStatisticsCalculator_transform_Ok.
  exists loaded, rows. split_and!; [done| | |done].
  - rewrite (feature_stats_loop_length _ _ _ Hrows). simpl.
    pose proof (AudioLoader_transform_NoDup _ _ _ Hl) as Hnd.
    destruct (AudioTrimmer_loop_spec _ _ _ _ Ht) as (_ & _ & Hkt).
    specialize (Hkt Hnd). simpl in Hkt.
    destruct (FeatureExtractor_loop_spec _ _ _ HF) as (_ & _ & Hkeys).
    rewrite Hkt in Hkeys. specialize (Hkeys Hnd). simpl in Hkeys.
    apply (f_equal length) in Hkeys.
    unfold keys in Hkeys. by rewrite !length_fmap in Hkeys.
  - eapply pipeline_rows_uniform; [|done].
    destruct (FeatureExtractor_loop_spec _ _ _ HF) as (_ & Hnames & _).
    intros k features Hin.
    apply (proj1 (Forall_forall _ _) (Hnames (Forall_nil_2 _)) _ Hin).
Qed.

Lemma pipeline_rows_nonempty fs X (loaded : list (string * audio_info sample))
    (rows : list (list (string * cell num))) :
  AudioLoader_transform fs X = Ok loaded →
  length rows = length loaded →
  X ≠ [] → rows ≠ [].
Proof.
  intros Hl Hlen HX ->. destruct X as [|p X]; [done|].
  destruct loaded as [|e loaded]; [|done].
  assert (Path.basename p ∈ keys (@nil (string * audio_info sample))) as Hin.
  { apply (AudioLoader_loop_keys _ _ _ _ Hl). right. by left. }
  by apply elem_of_nil in Hin.
Qed.

(** X11. Whatever the recordings, the table handed to the classifier has
    the same thirty columns in the same order: the four statistics of the
    eight features in the order of extraction, without
    ['mel_spectrogram_min'] and ['chroma_stft_max']. *)
Theorem classifier_columns_fixed fs X df :
  pipeline_transform fs X = Ok df →
  X ≠ [] →
  columns df = classifier_columns.
Proof.
  intros (loaded & rows & Hl & Hlen & Hrows & ->)%pipeline_transform_inv HX.
  rewrite (uniform_table _ all_stat_keys);
    [|by eapply pipeline_rows_nonempty|done|apply all_stat_keys_NoDup].
  unfold columns. rewrite <- list_fmap_compose.
  rewrite <- classifier_columns_eq. apply list_fmap_id.
Qed.

(** X12. For paths with pairwise distinct basenames, every column of the
    table handed to the classifier holds one numeric cell per path: no
    cell is missing (NaN) or a string. *)
Theorem classifier_cells_numeric fs X df (label : string)
    (col : list (cell num)) :
  pipeline_transform fs X = Ok df →
  NoDup (Path.basename <$> X) →
  (label, col) ∈ df →
  length col = length X ∧ Forall is_Num col.
Proof.
  intros (loaded & rows & Hl & Hlen & Hrows & ->)%pipeline_transform_inv Hnd Hin.
  destruct (decide (rows = [])) as [->|Hne]; [by apply elem_of_nil in Hin|].
  rewrite (uniform_table _ all_stat_keys) in Hin;
    [|done|done|apply all_stat_keys_NoDup].
  apply list_elem_of_fmap in Hin as (k & [= -> ->] & Hk).
  apply list_elem_of_filter in Hk as [_ Hk].
  split.
  - rewrite length_fmap, Hlen.
    pose proof (AudioLoader_loop_keys_fresh _ _ _ _ Hl Hnd) as Hkeys.
    apply (f_equal length) in Hkeys. simpl in Hkeys.
    unfold keys in Hkeys. by rewrite !length_fmap in Hkeys.
  - pose proof all_stat_keys_NoDup as [Hfn _]%NoDup_cons.
    by eapply uniform_column_is_Num.
Qed.

End PipelineColumns.

(** ** The returned dictionary *)

Section ResultFacts.

Context {content sample array num : Type}.
Context `{!Librosa content sample array} `{!Numpy sample array num}.
Context `{!Joblib content num}.
Implicit Types (fs : filesystem content) (r : prediction_result).

Lemma build_result_inv (pred : scalar) (probs : list Q) (classes : list scalar) r :
  build_result pred probs classes = Ok r →
  np_max_vec probs = Ok (probability r) ∧
  label_of pred = Ok (prediction r) ∧
  all_probabilities_loop (zip classes probs) [] = Ok (all_probabilities r).
Proof.
  unfold build_result.
  destruct (np_max_vec probs) as [m|]; [|done]. simpl.
  destruct (label_of pred) as [l|]; [|done]. simpl.
  destruct (all_probabilities_loop _ _) as [d|]; [|done]. simpl.
  by intros [= <-].
Qed.

Lemma length_dict_set {V} (d : list (string * V)) (k : string) (v : V) :
  (length (dict_set d k v) ≤ S (length d))%nat.
Proof.
  induction d as [|[k' v'] d IH]; simpl; [lia|].
  destruct (decide (k = k')); simpl; lia.
Qed.

Lemma all_probabilities_loop_spec (pairs : list (scalar * Q))
    (d d' : list (string * Q)) :
  all_probabilities_loop pairs d = Ok d' →
  (NoDup (keys d) → NoDup (keys d')) ∧
  (length d' ≤ length d + length pairs)%nat ∧
  (∀ k, k ∈ keys d → k ∈ keys d') ∧
  (∀ c p l, (c, p) ∈ pairs → label_of c = Ok l → l ∈ keys d').
Proof.
  revert d. induction pairs as [|[c p] pairs IH]; intros d; simpl.
  - intros [= ->]. split_and!; [done|lia|done|].
    intros ??? Hin. by apply elem_of_nil in Hin.
  - destruct (label_of c) as [l|] eqn:Hl; [|done]. simpl. intros Hloop.
    destruct (IH _ Hloop) as (Hnd & Hlen & Hsub & Hkeys). split_and!.
    + intros Hd. by apply Hnd, NoDup_keys_dict_set.
    + pose proof (length_dict_set d l p). lia.
    + intros k Hk. apply Hsub, elem_of_keys_dict_set. by right.
    + intros c' p' l' [Heq|Hin]%elem_of_cons Hl'.
      * injection Heq as -> ->. rewrite Hl in Hl'. injection Hl' as <-.
        apply Hsub, elem_of_keys_dict_set. by left.
      * by eapply Hkeys.
Qed.

(** X13. Distinct integer classes get distinct keys: the label given to
    an integer class, a name from [LABEL_MAP] or else its numeral,
    determines the class. *)
Theorem integer_class_labels_distinct (z1 z2 : Z) :
  label_of (np_int64 z1) = label_of (np_int64 z2) → z1 = z2.
Proof.
  change (Ok (int_label z1) = Ok (int_label z2) → z1 = z2).
  intros [= Heq]. by apply int_label_inj.
Qed.

(** X14. For a model whose classes are distinct integers,
    ['all_probabilities'] lists the classes in the order of
    [model.classes_], each under its label with the probability of the
    model unchanged; probabilities beyond the number of classes are
    dropped. *)
Theorem all_probabilities_of_integer_classes fs (wav mp : string)
    (pred : scalar) (probs : list Q) (zs : list Z) r :
  run_model fs wav mp = Ok (pred, probs, np_int64 <$> zs) →
  NoDup zs →
  predict_condition fs wav mp = Ok r →
  all_probabilities r = zip (int_label <$> zs) probs.
Proof.
  intros Hrun Hnd Hr.
  rewrite (predict_condition_unfold _ _ _ _ _ _ Hrun) in Hr.
  apply build_result_inv in Hr as (_ & _ & Hall).
  rewrite all_probabilities_loop_ints in Hall.
  - by injection Hall as <-.
  - simpl. pose proof int_label_inj as Hinj. by apply (NoDup_fmap_2 int_label).
Qed.

(** X15. Whatever the model, the keys of ['all_probabilities'] are
    pairwise distinct and there are at most as many entries as classes
    and as probabilities: classes that get the same key share one
    entry. *)
Theorem all_probabilities_is_dict fs (wav mp : string) (pred : scalar)
    (probs : list Q) (classes : list scalar) r :
  run_model fs wav mp = Ok (pred, probs, classes) →
  predict_condition fs wav mp = Ok r →
  NoDup (keys (all_probabilities r)) ∧
  (length (all_probabilities r) ≤ length classes)%nat ∧
  (length (all_probabilities r) ≤ length probs)%nat.
Proof.
  intros Hrun Hr.
  rewrite (predict_condition_unfold _ _ _ _ _ _ Hrun) in Hr.
  apply build_result_inv in Hr as (_ & _ & Hall).
  destruct (all_probabilities_loop_spec _ _ _ Hall) as (Hnd & Hlen & _).
  rewrite length_zip in Hlen. simpl in Hlen.
  split_and!; [apply Hnd, NoDup_nil_2|lia..].
Qed.

(** X16. When the predicted class is one of [model.classes_] that is
    paired with a probability, the returned label is a key of
    ['all_probabilities']. *)
Theorem prediction_is_key_of_all_probabilities fs (wav mp : string)
    (pred : scalar) (probs : list Q) (classes : list scalar) (p : Q) r :
  run_model fs wav mp = Ok (pred, probs, classes) →
  (pred, p) ∈ zip classes probs →
  predict_condition fs wav mp = Ok r →
  prediction r ∈ keys (all_probabilities r).
Proof.
  intros Hrun Hin Hr.
  rewrite (predict_condition_unfold _ _ _ _ _ _ Hrun) in Hr.
  apply build_result_inv in Hr as (_ & Hl & Hall).
  destruct (all_probabilities_loop_spec _ _ _ Hall) as (_ & _ & _ & Hkeys).
  by apply (Hkeys pred p).
Qed.

(** X17. Whatever the classes, the returned ['probability'] is a greatest
    entry of the probability vector of the model, also when
    ['all_probabilities'] has lost entries. *)
Theorem probability_is_max_of_model_vector fs (wav mp : string)
    (pred : scalar) (probs : list Q) (classes : list scalar) r :
  run_model fs wav mp = Ok (pred, probs, classes) →
  predict_condition fs wav mp = Ok r →
  is_maximum (probability r) probs.
Proof.
  intros Hrun Hr.
  rewrite (predict_condition_unfold _ _ _ _ _ _ Hrun) in Hr.
  apply build_result_inv in Hr as (Hmax & _ & _).
  by apply np_max_vec_Ok.
Qed.

Lemma all_probabilities_loop_get_other (pairs : list (scalar * Q))
    (d d' : list (string * Q)) (l : string) :
  all_probabilities_loop pairs d = Ok d' →
  Forall (λ cp, label_of cp.1 ≠ Ok l) pairs →
  dict_get d' l = dict_get d l.
Proof.
  revert d. induction pairs as [|[c p] pairs IH]; intros d; simpl.
  - by intros [= ->] _.
  - destruct (label_of c) as [k|] eqn:Hk; [|done]. simpl.
    intros Hloop [Hc Hrest]%Forall_cons. simpl in Hc.
    rewrite (IH _ Hloop Hrest). apply dict_get_dict_set_ne. congruence.
Qed.

Lemma all_probabilities_loop_app (pairs1 pairs2 : list (scalar * Q))
    (d : list (string * Q)) :
  all_probabilities_loop (pairs1 ++ pairs2) d
  = (d1 ← all_probabilities_loop pairs1 d; all_probabilities_loop pairs2 d1).
Proof.
  revert d. induction pairs1 as [|[c p] pairs1 IH]; intros d; simpl; [done|].
  destruct (label_of c) as [k|]; simpl; [apply IH|done].
Qed.

(** X18. When several classes get the same key, the entry holds the
    probability of the last of them: if the pair [(c, p)] is followed by
    no class with the label of [c], that label is mapped to [p]. *)
Theorem all_probabilities_last_wins fs (wav mp : string) (pred : scalar)
    (probs : list Q) (classes : list scalar)
    (pre post : list (scalar * Q)) (c : scalar) (p : Q) (l : string) r :
  run_model fs wav mp = Ok (pred, probs, classes) →
  zip classes probs = pre ++ (c, p) :: post →
  label_of c = Ok l →
  Forall (λ cp, label_of cp.1 ≠ Ok l) post →
  predict_condition fs wav mp = Ok r →
  dict_get (all_probabilities r) l = Some p.
Proof.
  intros Hrun Hzip Hl Hpost Hr.
  rewrite (predict_condition_unfold _ _ _ _ _ _ Hrun) in Hr.
  apply build_result_inv in Hr as (_ & _ & Hall).
  rewrite Hzip, all_probabilities_loop_app in Hall.
  destruct (all_probabilities_loop pre []) as [d1|]; [|done].
  simpl in Hall. rewrite Hl in Hall. simpl in Hall.
  rewrite (all_probabilities_loop_get_other _ _ _ _ Hall Hpost).
  apply dict_get_dict_set_eq.
Qed.

End ResultFacts.

(** ** The handler and its environment *)

Section EnvironmentFacts.

Context {content sample array num : Type}.
Context `{!Librosa content sample array} `{!Numpy sample array num}.
Context `{!Joblib content num}.
Implicit Types (w : world content) (req : request content).
Implicit Types (file : upload content).

Lemma predict_cases w req :
  (dict_get (files req) "file" = None ∧
   predict w req
   = (Ok (Response (JObj [("error", JStr "No file uploaded")]) 400), w)) ∨
  (∃ file e,
     dict_get (files req) "file" = Some file ∧
     file_save w file (upload_path w file) = Raise e ∧
     predict w req = (Raise e, w)) ∨
  (∃ file w' tail resp,
     dict_get (files req) "file" = Some file ∧
     file_save w file (upload_path w file) = Ok w' ∧
     predict w req
     = (Ok resp, World (fs w') (writable w') (temp_dir w') (trace w' ++ tail)) ∧
     ((∃ r, predict_condition (fs w') (upload_path w file)
              "respiratory_classifier.pkl" = Ok r ∧
            resp = Response (jsonify_result r) 200) ∨
      (∃ e, predict_condition (fs w') (upload_path w file)
              "respiratory_classifier.pkl" = Raise e ∧
            resp = Response (JObj [("error", JStr (str_exn e))]) 500))).
Proof.
  unfold predict.
  destruct (dict_get (files req) "file") as [file|]; [|by left].
  right. destruct (file_save w file _) as [w'|e] eqn:Hsave.
  - right. simpl.
    destruct (predict_condition _ _ _) as [r|e] eqn:Hr.
    + exists file, w', [CalledPredictCondition (upload_path w file)].
      eexists. split_and!; [done..|]. left. by exists r.
    + exists file, w', [CalledPredictCondition (upload_path w file);
                        PrintedTraceback e].
      eexists. split_and!; [done|done| |right; by exists e].
      unfold log. simpl. by rewrite <- app_assoc.
  - left. by exists file, e.
Qed.

Lemma file_save_Ok w file (path : string) w' :
  file_save w file path = Ok w' →
  writable w path = true ∧
  fs w' = <[path := stream file]> (fs w) ∧
  writable w' = writable w ∧ temp_dir w' = temp_dir w.
Proof.
  unfold file_save. destruct (writable w path); [|done].
  by intros [= <-].
Qed.

(** X19. Every answer of the handler has one of two shapes: status 200
    with the fields ['prediction'], ['probability'] and
    ['all_probabilities'] and no field ['error'], or status 400 or 500
    with a field ['error'] that holds a string. *)
Theorem response_shape w req (resp : response) :
  (predict w req).1 = Ok resp →
  (status resp = 200 ∧ is_prediction_response resp) ∨
  ((status resp = 400 ∨ status resp = 500) ∧ is_error_response resp).
Proof.
  destruct (predict_cases w req)
    as [[_ ->]|[(file & e & _ & _ & ->)
               |(file & w' & tail & resp' & _ & _ & -> & Hresp)]]; simpl.
  - intros [= <-]. right. split; [by left|]. by eexists.
  - done.
  - intros [= <-]. destruct Hresp as [(r & _ & ->)|(e & _ & ->)].
    + left. split; [done|]. split; [done|]. by eexists _, _, _.
    + right. split; [by right|]. by eexists.
Qed.

(** X20. The handler never removes a file and alters none but the one it
    writes: every name that could be read can still be read; a name that
    resolves to another file than the upload path reads the same before
    and after the request; a name that resolves to the same file as the
    upload path, however it is spelled, reads the uploaded bytes after
    the request, when the write is accepted; and a request without the
    part ['file'] leaves the file system as it was. The upload itself is
    left in place. *)
Theorem handler_frame w req (p : string) :
  (is_Some (fs w !! p) → is_Some (fs (predict w req).2 !! p)) ∧
  (∀ file, dict_get (files req) "file" = Some file →
           resolve (fs w) (upload_path w file) ≠ resolve (fs w) p →
           fs (predict w req).2 !! p = fs w !! p) ∧
  (∀ file, dict_get (files req) "file" = Some file →
           writable w (upload_path w file) = true →
           resolve (fs w) (upload_path w file) = resolve (fs w) p →
           fs (predict w req).2 !! p = Some (stream file)) ∧
  (dict_get (files req) "file" = None → fs (predict w req).2 = fs w).
Proof.
  destruct (predict_cases w req)
    as [[Hnone ->]|[(file & e & Hfile & Hsave & ->)
               |(file & w' & tail & resp & Hfile & Hsave & -> & _)]]; simpl.
  - split_and!; [done|done| |done]. intros file. by rewrite Hnone.
  - split_and!; [done|done| |by rewrite Hfile].
    intros file' Hfile' Hw. rewrite Hfile in Hfile'. injection Hfile' as <-.
    unfold file_save in Hsave. by rewrite Hw in Hsave.
  - apply file_save_Ok in Hsave as (_ & -> & _ & _). split_and!.
    + intros Hp.
      destruct (decide (resolve (fs w) (upload_path w file) = resolve (fs w) p))
        as [Heq|Hne].
      * rewrite (fs_lookup_insert_alias _ _ _ _ Heq). by eexists.
      * by rewrite fs_lookup_insert_ne.
    + intros file' Hfile' Hne. rewrite Hfile in Hfile'.
      injection Hfile' as <-. by rewrite fs_lookup_insert_ne.
    + intros file' Hfile' _ Heq. rewrite Hfile in Hfile'.
      injection Hfile' as <-. by apply fs_lookup_insert_alias.
    + by rewrite Hfile.
Qed.

(** X21. The file name of the upload is used as it is sent: a name that
    starts with a slash is an absolute path, [os.path.join] drops the
    temporary directory, and the upload is written at that path. *)
Theorem absolute_filename_leaves_temp_dir w req file :
  dict_get (files req) "file" = Some file →
  Path.starts_with_slash (filename file) = true →
  writable w (filename file) = true →
  upload_path w file = filename file ∧
  fs (predict w req).2 !! filename file = Some (stream file).
Proof.
  intros Hfile Habs Hw.
  assert (upload_path w file = filename file) as Hpath.
  { unfold upload_path, Path.join. by rewrite Habs. }
  split; [done|].
  destruct (predict_with_file w req file Hfile) as (tail & -> & _).
  { by rewrite Hpath. }
  simpl. rewrite Hpath. apply fs_lookup_insert_eq.
Qed.

(** X22. An upload can replace the model: when the upload path names the
    same file as ['respiratory_classifier.pkl'], the uploaded bytes are
    what the model path holds after the request, and the prediction of
    that very request loads them as the model. *)
Theorem upload_can_replace_model w req file :
  dict_get (files req) "file" = Some file →
  writable w (upload_path w file) = true →
  resolve (fs w) (upload_path w file)
  = resolve (fs w) "respiratory_classifier.pkl" →
  fs (predict w req).2 !! "respiratory_classifier.pkl" = Some (stream file) ∧
  ∀ e, joblib_load (stream file) = Raise e →
       (predict w req).1
       = Ok (Response (JObj [("error", JStr (str_exn e))]) 500).
Proof.
  intros Hfile Hw Halias. split.
  - destruct (predict_with_file w req file Hfile Hw) as (tail & -> & _).
    simpl. by apply fs_lookup_insert_alias.
  - intros e He. unfold predict, file_save. rewrite Hfile, Hw. simpl.
    unfold predict_condition, run_model.
    rewrite (fs_lookup_insert_alias _ _ _ _ Halias). simpl.
    by rewrite He.
Qed.

Lemma pipeline_transform_ext (fs1 fs2 : filesystem content) (wav : string) :
  fs1 !! wav = fs2 !! wav →
  pipeline_transform fs1 [wav] = pipeline_transform (num:=num) fs2 [wav].
Proof.
  intros Hwav. unfold pipeline_transform, AudioLoader_transform.
  unfold AudioLoader_loop, librosa_load. by rewrite Hwav.
Qed.

Lemma predict_condition_ext (fs1 fs2 : filesystem content) (wav mp : string) :
  fs1 !! wav = fs2 !! wav → fs1 !! mp = fs2 !! mp →
  predict_condition fs1 wav mp = predict_condition fs2 wav mp.
Proof.
  intros Hwav Hmp. unfold predict_condition, run_model.
  by rewrite Hmp, (pipeline_transform_ext _ _ _ Hwav).
Qed.

(** X23. The answer depends on the environment only through the
    temporary directory, the permission to write, the resolution of
    path names and the file the model path names: two environments that
    agree on these give the same answer to the same request, whatever
    other files they hold, also a stale file at the upload path, which
    is replaced before it is read. *)
Theorem response_independent_of_other_files w1 w2 req :
  temp_dir w1 = temp_dir w2 →
  (∀ p, writable w1 p = writable w2 p) →
  (∀ p, resolve (fs w1) p = resolve (fs w2) p) →
  fs w1 !! "respiratory_classifier.pkl" = fs w2 !! "respiratory_classifier.pkl" →
  (predict w1 req).1 = (predict w2 req).1.
Proof.
  intros Htmp Hwr Hres Hmodel. unfold predict.
  destruct (dict_get (files req) "file") as [file|]; [|done].
  assert (upload_path w1 file = upload_path w2 file) as Hpath
    by (unfold upload_path; by rewrite Htmp).
  unfold file_save. rewrite Hpath, Hwr.
  destruct (writable w2 (upload_path w2 file)); [|done]. simpl.
  rewrite (predict_condition_ext _ (<[upload_path w2 file := stream file]> (fs w2))).
  - by destruct (predict_condition _ _ _).
  - by rewrite !fs_lookup_insert_eq.
  - destruct (decide (resolve (fs w2) (upload_path w2 file)
                      = resolve (fs w2) "respiratory_classifier.pkl"))
      as [Heq|Hne].
    + rewrite (fs_lookup_insert_alias (fs w2) _ _ _ Heq).
      rewrite fs_lookup_insert_alias; [done|]. by rewrite !Hres.
    + rewrite (fs_lookup_insert_ne (fs w2)) by done.
      rewrite fs_lookup_insert_ne; [done|]. by rewrite !Hres.
Qed.

End EnvironmentFacts.

(** * Further concrete runs *)

Module MoreRuns.
Import Demo Demo2.

Lemma upload_key_is_basename_witness :
  AudioLoader_transform (fs_with "model3") [upload_path world0 cough]
  = Ok [("cough.wav", AudioInfo [4; 1; -1] 2)] ∧
  keys [("cough.wav", AudioInfo [4; 1; -1] 2)]
  = [Path.basename (filename cough)].
Proof.
  assert (AudioLoader_transform (fs_with "model3") [upload_path world0 cough]
          = Ok [("cough.wav", AudioInfo [4; 1; -1] 2)]) as Hl
    by (by vm_compute).
  split; [done|].
  apply (upload_key_is_basename world0 cough (fs_with "model3") _ Hl).
Defined.

Lemma AudioLoader_keys_witness :
  AudioLoader_transform fs_batch batch = Ok loaded_batch ∧
  NoDup (keys loaded_batch) ∧
  (∀ k, k ∈ keys loaded_batch ↔ k ∈ Path.basename <$> batch) ∧
  (NoDup (Path.basename <$> batch) →
   keys loaded_batch = Path.basename <$> batch).
Proof.
  assert (AudioLoader_transform fs_batch batch = Ok loaded_batch) as Hl
    by (by vm_compute).
  split; [done|]. apply (AudioLoader_keys fs_batch batch loaded_batch Hl).
Defined.

Lemma AudioLoader_last_wins_witness :
  AudioLoader_transform fs_batch (["/a/x.wav"] ++ "/b/x.wav" :: ["/b/y.wav"])
  = Ok loaded_batch ∧
  librosa_load fs_batch "/b/x.wav" = Ok ([3; 1; -1], 2) ∧
  (Path.basename "/b/x.wav" ∉ Path.basename <$> ["/b/y.wav"]) ∧
  dict_get loaded_batch (Path.basename "/b/x.wav")
  = Some (AudioInfo [3; 1; -1] 2).
Proof.
  assert (AudioLoader_transform fs_batch
            (["/a/x.wav"] ++ "/b/x.wav" :: ["/b/y.wav"]) = Ok loaded_batch)
    as Hl by (by vm_compute).
  assert (librosa_load fs_batch "/b/x.wav" = Ok ([3; 1; -1], 2)) as Hp
    by (by vm_compute).
  assert (Path.basename "/b/x.wav" ∉ Path.basename <$> ["/b/y.wav"]) as Hpost.
  { vm_compute. intros Hin. apply list_elem_of_singleton in Hin. done. }
  split_and!; [done..|].
  apply (AudioLoader_last_wins fs_batch ["/a/x.wav"] ["/b/y.wav"] "/b/x.wav"
           [3; 1; -1] 2 loaded_batch Hl Hp Hpost).
Defined.

Lemma AudioLoader_first_failure_witness :
  Forall (λ q, ∃ r, librosa_load fs_batch q = Ok r) ["/a/x.wav"] ∧
  librosa_load fs_batch "/missing.wav"
  = Raise (FileNotFoundError
             "[Errno 2] No such file or directory: '/missing.wav'") ∧
  AudioLoader_transform fs_batch (["/a/x.wav"] ++ "/missing.wav" :: ["/b/y.wav"])
  = Raise (FileNotFoundError
             "[Errno 2] No such file or directory: '/missing.wav'").
Proof.
  assert (Forall (λ q, ∃ r, librosa_load fs_batch q = Ok r) ["/a/x.wav"]) as Hpre.
  { apply Forall_singleton. eexists. by vm_compute. }
  assert (librosa_load fs_batch "/missing.wav"
          = Raise (FileNotFoundError
                     "[Errno 2] No such file or directory: '/missing.wav'"))
    as Hp by (by vm_compute).
  split_and!; [done..|].
  apply (AudioLoader_first_failure fs_batch ["/a/x.wav"] ["/b/y.wav"]
           "/missing.wav" _ Hpre Hp).
Defined.

Lemma AudioTrimmer_negative_target_witness :
  target_samples negative_duration (sample_rate short_wave) = Ok (-2) ∧
  -2 < 0 ∧
  ∃ out,
    trim_entry negative_duration short_wave = Ok out ∧
    t_data out = take (Z.to_nat (len (data short_wave) + -2)) (data short_wave) ∧
    len (t_data out) = Z.max 0 (len (data short_wave) + -2).
Proof.
  assert (target_samples negative_duration (sample_rate short_wave) = Ok (-2))
    as Ht by (by vm_compute).
  assert (-2 < 0) as Hneg by lia.
  split_and!; [done..|].
  apply (AudioTrimmer_negative_target negative_duration short_wave (-2) Ht Hneg).
Defined.

Lemma AudioTrimmer_idempotent_witness :
  target_samples default_target_duration (sample_rate long_wave) = Ok 15 ∧
  0 <= 15 ∧
  ∃ out,
    trim_entry default_target_duration long_wave = Ok out ∧
    trim_entry default_target_duration
      (AudioInfo (t_data out) (t_sample_rate out)) = Ok out.
Proof.
  assert (target_samples default_target_duration (sample_rate long_wave) = Ok 15)
    as Ht by (by vm_compute).
  assert (0 <= 15) as Hpos by lia.
  split_and!; [done..|].
  apply (AudioTrimmer_idempotent default_target_duration long_wave 15 Ht Hpos).
Defined.

Lemma FeatureExtractor_features_witness :
  FeatureExtractor_transform trimmed1 = Ok extracted1 ∧
  (∀ k, k ∈ keys extracted1 ↔ k ∈ keys trimmed1) ∧
  ∀ k fs, (k, fs) ∈ extracted1 → keys fs = feature_names.
Proof.
  assert (FeatureExtractor_transform trimmed1 = Ok extracted1) as HF
    by (by vm_compute).
  split; [done|]. apply (FeatureExtractor_features trimmed1 extracted1 HF).
Defined.

Lemma excluded_features_only_filter_witness :
  FeatureStatisticsCalculator_transform excluded_features features1 = Ok table1 ∧
  ∃ df0,
    FeatureStatisticsCalculator_transform
      (FeatureStatisticsCalculator_init None) features1 = Ok df0 ∧
    table1 = filter (λ c, c.1 ∉ excluded_features) df0.
Proof.
  assert (FeatureStatisticsCalculator_transform excluded_features features1
          = Ok table1) as Hdf by (by vm_compute).
  split; [done|].
  apply (excluded_features_only_filter excluded_features features1 table1 Hdf).
Defined.

Lemma statistics_table_column_length_witness :
  FeatureStatisticsCalculator_transform excluded_features features1 = Ok table1 ∧
  ("chroma_stft_mean", [Num 1]) ∈ table1 ∧
  length [Num 1] = length features1.
Proof.
  assert (FeatureStatisticsCalculator_transform excluded_features features1
          = Ok table1) as Hdf by (by vm_compute).
  assert (("chroma_stft_mean", [Num 1]) ∈ table1) as Hin by (by left).
  split_and!; [done..|].
  apply (statistics_table_column_length excluded_features features1 table1
           "chroma_stft_mean" [Num 1] Hdf Hin).
Defined.

Lemma statistics_table_labels_witness :
  FeatureStatisticsCalculator_transform excluded_features features1 = Ok table1 ∧
  "mel_spectrogram_max" ∈ columns table1 ∧
  ∃ filename features feature_name,
    (filename, features) ∈ features1 ∧
    feature_name ∈ keys features ∧
    "mel_spectrogram_max" ∈ stat_keys feature_name.
Proof.
  assert (FeatureStatisticsCalculator_transform excluded_features features1
          = Ok table1) as Hdf by (by vm_compute).
  assert ("mel_spectrogram_max" ∈ columns table1) as Hin
    by (unfold table1; simpl; do 5 right; left).
  split_and!; [done..|].
  apply (statistics_table_labels excluded_features features1 table1
           "mel_spectrogram_max" Hdf Hin).
Defined.

Lemma classifier_columns_fixed_witness :
  pipeline_transform (fs_with "model3") ["/tmp/cough.wav"] = Ok table2 ∧
  ["/tmp/cough.wav"] ≠ [] ∧
  columns table2 = classifier_columns.
Proof.
  assert (pipeline_transform (fs_with "model3") ["/tmp/cough.wav"] = Ok table2)
    as Hdf by (by vm_compute).
  assert (["/tmp/cough.wav"] ≠ []) as HX by done.
  split_and!; [done..|].
  apply (classifier_columns_fixed (fs_with "model3") ["/tmp/cough.wav"] table2
           Hdf HX).
Defined.

Lemma classifier_cells_numeric_witness :
  pipeline_transform (fs_with "model3") ["/tmp/cough.wav"] = Ok table2 ∧
  NoDup (Path.basename <$> ["/tmp/cough.wav"]) ∧
  ("mfcc_max", [Num 4]) ∈ table2 ∧
  length [Num 4] = length ["/tmp/cough.wav"] ∧
  Forall is_Num [Num 4].
Proof.
  assert (pipeline_transform (fs_with "model3") ["/tmp/cough.wav"] = Ok table2)
    as Hdf by (by vm_compute).
  assert (NoDup (Path.basename <$> ["/tmp/cough.wav"])) as Hnd
    by (apply NoDup_singleton).
  assert (("mfcc_max", [Num 4]) ∈ table2) as Hin
    by (unfold table2; do 5 right; left).
  split_and!; [done..| |];
    apply (classifier_cells_numeric (fs_with "model3") ["/tmp/cough.wav"]
             table2 "mfcc_max" [Num 4] Hdf Hnd Hin).
Defined.

Lemma integer_class_labels_distinct_witness :
  label_of (np_int64 3) = label_of (np_int64 3) ∧ 3 = 3.
Proof.
  split; [reflexivity|]. apply (integer_class_labels_distinct 3 3 eq_refl).
Defined.

Lemma all_probabilities_of_integer_classes_witness :
  run_model (fs_with "model3") "/tmp/cough.wav" model_path
  = Ok (np_int64 3, [1 # 10; 7 # 10; 2 # 10]%Q, np_int64 <$> [0; 3; 6]) ∧
  NoDup [0; 3; 6] ∧
  predict_condition (fs_with "model3") "/tmp/cough.wav" model_path = Ok result3 ∧
  all_probabilities result3
  = zip (int_label <$> [0; 3; 6]) [1 # 10; 7 # 10; 2 # 10]%Q.
Proof.
  assert (NoDup [0; 3; 6]) as Hnd by nodup.
  assert (run_model (fs_with "model3") "/tmp/cough.wav" model_path
          = Ok (np_int64 3, [1 # 10; 7 # 10; 2 # 10]%Q, np_int64 <$> [0; 3; 6]))
    as Hrun by (by vm_compute).
  assert (predict_condition (fs_with "model3") "/tmp/cough.wav" model_path
          = Ok result3) as Hr by (by vm_compute).
  split_and!; [done..|].
  apply (all_probabilities_of_integer_classes _ _ _ _ _ [0; 3; 6] _ Hrun Hnd Hr).
Defined.

Lemma all_probabilities_is_dict_witness :
  run_model (Joblib0:=joblib_dup) (fs_with "any") "/tmp/cough.wav" model_path
  = Ok (np_str_0, [9 # 10; 1 # 10]%Q, [np_str_0; np_str_00]) ∧
  predict_condition (Joblib0:=joblib_dup) (fs_with "any") "/tmp/cough.wav"
    model_path = Ok result_dup ∧
  NoDup (keys (all_probabilities result_dup)) ∧
  (length (all_probabilities result_dup) ≤ length [np_str_0; np_str_00])%nat ∧
  (length (all_probabilities result_dup) ≤ length [9 # 10; 1 # 10]%Q)%nat.
Proof.
  assert (run_model (Joblib0:=joblib_dup) (fs_with "any") "/tmp/cough.wav"
            model_path
          = Ok (np_str_0, [9 # 10; 1 # 10]%Q, [np_str_0; np_str_00]))
    as Hrun by (by vm_compute).
  assert (predict_condition (Joblib0:=joblib_dup) (fs_with "any")
            "/tmp/cough.wav" model_path = Ok result_dup)
    as Hr by (by vm_compute).
  split_and!; [done..| | |];
    apply (all_probabilities_is_dict (Joblib0:=joblib_dup) _ _ _ _ _ _ _ Hrun Hr).
Defined.

Lemma prediction_is_key_of_all_probabilities_witness :
  run_model (fs_with "model3") "/tmp/cough.wav" model_path
  = Ok (np_int64 3, [1 # 10; 7 # 10; 2 # 10]%Q, np_int64 <$> [0; 3; 6]) ∧
  (np_int64 3, 7 # 10) ∈ zip (np_int64 <$> [0; 3; 6]) [1 # 10; 7 # 10; 2 # 10]%Q ∧
  predict_condition (fs_with "model3") "/tmp/cough.wav" model_path = Ok result3 ∧
  prediction result3 ∈ keys (all_probabilities result3).
Proof.
  assert (run_model (fs_with "model3") "/tmp/cough.wav" model_path
          = Ok (np_int64 3, [1 # 10; 7 # 10; 2 # 10]%Q, np_int64 <$> [0; 3; 6]))
    as Hrun by (by vm_compute).
  assert (predict_condition (fs_with "model3") "/tmp/cough.wav" model_path
          = Ok result3) as Hr by (by vm_compute).
  assert ((np_int64 3, 7 # 10)
          ∈ zip (np_int64 <$> [0; 3; 6]) [1 # 10; 7 # 10; 2 # 10]%Q) as Hin
    by (simpl; right; left).
  split_and!; [done..|].
  apply (prediction_is_key_of_all_probabilities _ _ _ _ _ _ _ _ Hrun Hin Hr).
Defined.

(** With the classes ['0'] and ['00'] the maximum 9/10 is reported but the
    only entry left in ['all_probabilities'] holds 1/10. *)
Lemma probability_is_max_of_model_vector_witness :
  run_model (Joblib0:=joblib_dup) (fs_with "any") "/tmp/cough.wav" model_path
  = Ok (np_str_0, [9 # 10; 1 # 10]%Q, [np_str_0; np_str_00]) ∧
  predict_condition (Joblib0:=joblib_dup) (fs_with "any") "/tmp/cough.wav"
    model_path = Ok result_dup ∧
  is_maximum (probability result_dup) [9 # 10; 1 # 10]%Q.
Proof.
  assert (run_model (Joblib0:=joblib_dup) (fs_with "any") "/tmp/cough.wav"
            model_path
          = Ok (np_str_0, [9 # 10; 1 # 10]%Q, [np_str_0; np_str_00]))
    as Hrun by (by vm_compute).
  assert (predict_condition (Joblib0:=joblib_dup) (fs_with "any")
            "/tmp/cough.wav" model_path = Ok result_dup)
    as Hr by (by vm_compute).
  split_and!; [done..|].
  apply (probability_is_max_of_model_vector (Joblib0:=joblib_dup)
           _ _ _ _ _ _ _ Hrun Hr).
Defined.

Lemma all_probabilities_last_wins_witness :
  run_model (Joblib0:=joblib_dup) (fs_with "any") "/tmp/cough.wav" model_path
  = Ok (np_str_0, [9 # 10; 1 # 10]%Q, [np_str_0; np_str_00]) ∧
  zip [np_str_0; np_str_00] [9 # 10; 1 # 10]%Q
  = [(np_str_0, 9 # 10)] ++ (np_str_00, 1 # 10) :: [] ∧
  label_of np_str_00 = Ok "Asthma" ∧
  Forall (λ cp : scalar * Q, label_of cp.1 ≠ Ok "Asthma") [] ∧
  predict_condition (Joblib0:=joblib_dup) (fs_with "any") "/tmp/cough.wav"
    model_path = Ok result_dup ∧
  dict_get (all_probabilities result_dup) "Asthma" = Some (1 # 10).
Proof.
  assert (run_model (Joblib0:=joblib_dup) (fs_with "any") "/tmp/cough.wav"
            model_path
          = Ok (np_str_0, [9 # 10; 1 # 10]%Q, [np_str_0; np_str_00]))
    as Hrun by (by vm_compute).
  assert (predict_condition (Joblib0:=joblib_dup) (fs_with "any")
            "/tmp/cough.wav" model_path = Ok result_dup)
    as Hr by (by vm_compute).
  split_and!; [done|reflexivity|reflexivity|apply Forall_nil_2|done|].
  apply (all_probabilities_last_wins (Joblib0:=joblib_dup) _ _ _ _ _ _
           [(np_str_0, 9 # 10)] [] np_str_00 (1 # 10) "Asthma" _
           Hrun eq_refl eq_refl (Forall_nil_2 _) Hr).
Defined.

Lemma response_shape_witness :
  (predict world0 req_cough).1 = Ok response3 ∧
  ((status response3 = 200 ∧ is_prediction_response response3) ∨
   ((status response3 = 400 ∨ status response3 = 500) ∧
    is_error_response response3)).
Proof.
  assert ((predict world0 req_cough).1 = Ok response3) as Hresp
    by (by vm_compute).
  split; [done|]. apply (response_shape world0 req_cough response3 Hresp).
Defined.

(** An upload named [./cough.wav] is written to [/tmp/./cough.wav]: it
    replaces the file [/tmp/cough.wav] and leaves [/tmp/other] alone. *)
Lemma handler_frame_witness :
  dict_get (files req_dot) "file" = Some dot_cough ∧
  upload_path world_stale dot_cough = "/tmp/./cough.wav" ∧
  writable world_stale (upload_path world_stale dot_cough) = true ∧
  resolve (fs world_stale) (upload_path world_stale dot_cough)
  = resolve (fs world_stale) "/tmp/cough.wav" ∧
  resolve (fs world_stale) (upload_path world_stale dot_cough)
  ≠ resolve (fs world_stale) "/tmp/other" ∧
  fs world_stale !! "/tmp/cough.wav" = Some "old" ∧
  fs (predict world_stale req_dot).2 !! "/tmp/cough.wav"
  = Some (stream dot_cough) ∧
  fs (predict world_stale req_dot).2 !! "/tmp/other"
  = fs world_stale !! "/tmp/other".
Proof.
  assert (resolve (fs world_stale) (upload_path world_stale dot_cough)
          ≠ resolve (fs world_stale) "/tmp/other") as Hne
    by (by vm_compute).
  split_and!; [reflexivity|reflexivity|reflexivity|reflexivity|done
              |reflexivity| |].
  - apply (proj1 (proj2 (proj2
             (handler_frame world_stale req_dot "/tmp/cough.wav")))
             dot_cough eq_refl eq_refl eq_refl).
  - apply (proj1 (proj2 (handler_frame world_stale req_dot "/tmp/other"))
             dot_cough eq_refl Hne).
Defined.

Lemma absolute_filename_leaves_temp_dir_witness :
  dict_get (files req_absolute) "file" = Some absolute ∧
  Path.starts_with_slash (filename absolute) = true ∧
  writable world0 (filename absolute) = true ∧
  upload_path world0 absolute = "/srv/app/model.bin" ∧
  fs (predict world0 req_absolute).2 !! "/srv/app/model.bin" = Some "RIFF".
Proof.
  split_and!; [reflexivity..| |];
    apply (absolute_filename_leaves_temp_dir world0 req_absolute absolute
             eq_refl eq_refl eq_refl).
Defined.

Lemma upload_can_replace_model_witness :
  dict_get (files req_model) "file" = Some model_upload ∧
  writable world0 (upload_path world0 model_upload) = true ∧
  resolve (fs world0) (upload_path world0 model_upload)
  = resolve (fs world0) "respiratory_classifier.pkl" ∧
  fs (predict world0 req_model).2 !! "respiratory_classifier.pkl"
  = Some (stream model_upload) ∧
  ∀ e, joblib_load (stream model_upload) = Raise e →
       (predict world0 req_model).1
       = Ok (Response (JObj [("error", JStr (str_exn e))]) 500).
Proof.
  split_and!; [reflexivity..| |];
    apply (upload_can_replace_model world0 req_model model_upload
             eq_refl eq_refl eq_refl).
Defined.

Lemma response_independent_of_other_files_witness :
  temp_dir world0 = temp_dir world_stale ∧
  (∀ p, writable world0 p = writable world_stale p) ∧
  (∀ p, resolve (fs world0) p = resolve (fs world_stale) p) ∧
  fs world0 !! "respiratory_classifier.pkl"
  = fs world_stale !! "respiratory_classifier.pkl" ∧
  (predict world0 req_cough).1 = (predict world_stale req_cough).1.
Proof.
  assert (fs world0 !! "respiratory_classifier.pkl"
          = fs world_stale !! "respiratory_classifier.pkl") as Hmodel
    by (by vm_compute).
  split_and!; [reflexivity|done|done|done|].
  apply (response_independent_of_other_files world0 world_stale req_cough
           eq_refl (λ _, eq_refl) (λ _, eq_refl) Hmodel).
Defined.

End MoreRuns.
